(** * The MACSima reader ([spatialdata_io/readers/macsima.py])

    A shallow embedding of the reader's metadata reconciliation: the
    per-image metadata extraction ([_get_metadata]), the physical pixel size
    normalisation ([_parse_physical_size]), the name sanitisation
    ([_clean_string]) and the assembly pipeline ([macsima]), followed by the
    properties of these functions.

    Conventions of the embedding.
    - A Python [str] is a [string]; its characters are the code points
      U+0000..U+00FF, on which the pattern [\d] is the class [0-9].
    - A value that is [str | None] is an [option string]; an entry of a
      metadata row is such a value or the empty list ([entry]).
    - A Python [float] is a primitive binary64 float, [==] on floats is
      [PrimFloat.eqb].
    - A call either returns or raises: [result A] is [Ok a] or [Raise e],
      with one [exception] per raise site of the source.
    - The external collaborators (file discovery and decoding, [da.stack],
      [Image2DModel.parse], [SpatialData]) are not modelled: [macsima] takes
      the decoded images, in the order file discovery gave them, and returns
      the arguments it hands to the collaborators.
    - [int] is taken without a bound on the number of digits it converts. *)

From Stdlib Require Import List String Ascii Bool Arith NArith ZArith Lia.
From Stdlib Require Import Permutation Sorted Floats.
Import ListNotations.
Local Open Scope string_scope.
Local Open Scope list_scope.

(** ** Exceptions and results *)

(** Modelled from the spec: the annotation keys of the [MacsimaKeys]
    enumeration ([spatialdata_io/_constants/_constants.py], not among the
    sources). The spec names a cycle key, a scan type key, a current ROI key
    and a deprecated ROI key; the other members of the enumeration are
    attribute names and appear below as record fields. *)
Inductive MacsimaKeys : Type :=
| CYCLE
| SCANTYPE
| ROI_ID
| ROI_ID_deprecated.

(** The units of length of the OME model ([ome_types.model.UnitsLength]). *)
Inductive UnitsLength : Type :=
| YOTTAMETER | ZETTAMETER | EXAMETER | PETAMETER | TERAMETER | GIGAMETER
| MEGAMETER | KILOMETER | HECTOMETER | DECAMETER | METER | DECIMETER
| CENTIMETER | MILLIMETER | MICROMETER | NANOMETER | PICOMETER | FEMTOMETER
| ATTOMETER | ZEPTOMETER | YOCTOMETER | ANGSTROM | THOU | LINE | INCH | FOOT
| YARD | MILE | ASTRONOMICALUNIT | LIGHTYEAR | PARSEC | POINT | PIXEL
| REFERENCEFRAME.

Definition UnitsLength_eq_dec (u v : UnitsLength) : {u = v} + {u <> v}.
Proof. decide equality. Defined.

Definition UnitsLength_eqb (u v : UnitsLength) : bool :=
  if UnitsLength_eq_dec u v then true else false.

(** What [_parse_physical_size] writes to the error log before it raises. *)
Inductive logged_error : Type :=
| UnitsNotTheSame                      (* line 157 *)
| SizesNotTheSame                      (* line 160 *)
| UnitNotRecognized (u : UnitsLength). (* line 168 *)

(** The classes of the exceptions the reader raises. *)
Inductive exception_class : Type :=
| ValueError | AssertionError | AttributeError | NotImplementedError
| IndexError | TypeError.

(** One constructor per place where the source raises. *)
Inductive exception : Type :=
| NoFilesFound                           (* line 60, ValueError *)
| NoExperiment                           (* line 63, experiments[0] *)
| RoiNotEqual                            (* line 69, assert *)
| NoLeadingDigits                        (* line 79, None.group() *)
| NotEnoughValuesToUnpack                (* line 83, unpacking of an empty map *)
| EmptyAfterSubsetting                   (* line 89, ValueError *)
| NoImage                                (* lines 92 and 95, images[0] *)
| PhysicalSizeNotEqual                   (* line 95, assert *)
| DimsOrderNotTCZYX                      (* line 96, assert *)
| AnnotationsNotEqual (k : MacsimaKeys)  (* line 122, assert *)
| CycleNotFound                          (* line 129, assert *)
| ChannelNamesNotFound                   (* line 134, AttributeError *)
| NotExactlyOneChannel                   (* line 135, assert *)
| ChannelNameNotSpecified                (* line 138, ValueError *)
| NotExactlyOneScreen                    (* line 143, assert *)
| NotExactlyOneReagent                   (* line 147, assert *)
| PixelsIsNone                           (* line 156, attribute of None *)
| NotImplemented (logged : logged_error) (* lines 158, 161, 169 *)
| NameIsNone.                            (* line 174, re.sub on None *)

Definition class_of (e : exception) : exception_class :=
  match e with
  | NoFilesFound | NotEnoughValuesToUnpack | EmptyAfterSubsetting
  | ChannelNameNotSpecified => ValueError
  | RoiNotEqual | PhysicalSizeNotEqual | DimsOrderNotTCZYX
  | AnnotationsNotEqual _ | CycleNotFound | NotExactlyOneChannel
  | NotExactlyOneScreen | NotExactlyOneReagent => AssertionError
  | NoLeadingDigits | ChannelNamesNotFound | PixelsIsNone => AttributeError
  | NotImplemented _ => NotImplementedError
  | NoExperiment | NoImage => IndexError
  | NameIsNone => TypeError
  end.

Inductive result (A : Type) : Type :=
| Ok (a : A)
| Raise (e : exception).
Arguments Ok {A} a.
Arguments Raise {A} e.

Definition bind {A B : Type} (r : result A) (k : A -> result B) : result B :=
  match r with
  | Ok a => k a
  | Raise e => Raise e
  end.

Notation "x <- r ;; k" := (bind r (fun x => k))
  (at level 61, r at next level, right associativity).

(** A list comprehension whose body may raise: left to right, the first
    exception ends it. *)
Fixpoint comprehension {A B : Type} (f : A -> result B) (l : list A)
  : result (list B) :=
  match l with
  | [] => Ok []
  | a :: l' => b <- f a ;; bs <- comprehension f l' ;; Ok (b :: bs)
  end.

Definition fails {A : Type} (r : result A) : Prop :=
  exists e, r = Raise e.

(** ** The decoded image, as the reader sees it *)

Record Pixels : Type := {
  physical_size_x : float;
  physical_size_y : float;
  physical_size_x_unit : UnitsLength;
  physical_size_y_unit : UnitsLength
}.

Record Reagent : Type := { name : option string }.

(** [reagents] is [None] when the screen has no such attribute. *)
Record Screen : Type := { reagents : option (list Reagent) }.

(** A lazily read pixel array: the shape, and a label that stands for the
    pixel content, which the reader never looks at. *)
Record DaskArray : Type := {
  content : string;
  shape : list nat
}.

(** The view of a [BioImage] the reader uses.
    - [experiments]: the [description] of each entry of
      [ome_metadata.experiments];
    - [structured_annotations]: for each annotation, what [item.value[key]]
      gives, which is [None] for a key the annotation does not carry;
    - [channel_names]: [None] when [getattr] finds nothing;
    - [screens]: [None] when [ome_metadata] has no such attribute;
    - [images]: the [pixels] of each entry of [ome_metadata.images];
    - [dims_order]: [dims.order];
    - [image_dask_data]: [get_image_dask_data()]. *)
Record BioImage : Type := {
  experiments : list (option string);
  structured_annotations : list (MacsimaKeys -> option string);
  channel_names : option (list string);
  screens : option (list Screen);
  images : list (option Pixels);
  dims_order : string;
  image_dask_data : DaskArray
}.

(** ** Python's notions used by the reader *)

(** An entry of the row [_get_metadata] returns: a [str | None], or the
    empty list that lines 145-146 leave as reagents when the screen has an
    empty list of reagents. A [str | None] is read as an entry where one is
    expected. *)
Inductive entry : Type :=
| Value (v : option string)
| EmptyList.

#[warning="-uniform-inheritance"]
Coercion Value : option >-> entry.

(** Rows are written as lists of [str | None] where all their entries are:
    the expected type of a list, and of the value a call returns, is used
    to read its elements. *)
Arguments cons {A} & a l.
Arguments pair {A B} & a b.
Arguments Ok {A} & a.

Definition metadata_row : Type := list entry.

(** Truth value of an entry: a string that is not empty. *)
Definition truthy (v : entry) : bool :=
  match v with
  | Value (Some s) => negb (s =? "")
  | Value None => false
  | EmptyList => false
  end.

(** [[part for part in parts if part]]. *)
Fixpoint truthy_parts (parts : metadata_row) : list string :=
  match parts with
  | [] => []
  | Value (Some s) :: parts' =>
      if s =? "" then truthy_parts parts' else s :: truthy_parts parts'
  | Value None :: parts' => truthy_parts parts'
  | EmptyList :: parts' => truthy_parts parts'
  end.

(** [sep.join(l)]. *)
Definition join (sep : string) (l : list string) : string :=
  String.concat sep l.

(** [item[i]] on a metadata row (rows have five entries, see
    [_get_metadata]). *)
Definition item (i : nat) (row : metadata_row) : entry :=
  nth i row (Value None).

(** The class [\d] on the code points below 256. *)
Definition is_digit (c : ascii) : bool :=
  let n := nat_of_ascii c in ((48 <=? n) && (n <=? 57))%nat.

(** [re.compile(r'^\d+').match(s)]: the longest run of digits at the start
    of [s], [None] when [s] does not start with a digit. *)
Fixpoint leading_digits (s : string) : string :=
  match s with
  | String c s' => if is_digit c then String c (leading_digits s') else ""
  | EmptyString => ""
  end.

Definition number_pattern_match (s : string) : option string :=
  match leading_digits s with
  | EmptyString => None
  | digits => Some digits
  end.

(** [int] on a string of digits. *)
Fixpoint int_from (acc : N) (digits : string) : N :=
  match digits with
  | String c s' => int_from (acc * 10 + (N_of_ascii c - 48))%N s'
  | EmptyString => acc
  end.

Definition int (digits : string) : N := int_from 0%N digits.

(** [sorted(l, key=key)]: the keys are computed once per element, from left
    to right, and the elements are put in ascending order of their keys;
    the sort is stable, an element ends up behind one that followed it in
    [l] only when its key is strictly greater. *)
Fixpoint insert_by_key {A : Type} (kx : N * A) (l : list (N * A))
  : list (N * A) :=
  match l with
  | [] => [kx]
  | ky :: l' =>
      if (fst kx <=? fst ky)%N then kx :: l else ky :: insert_by_key kx l'
  end.

Fixpoint sort_by_key {A : Type} (l : list (N * A)) : list (N * A) :=
  match l with
  | [] => []
  | kx :: l' => insert_by_key kx (sort_by_key l')
  end.

Definition sorted {A : Type} (key : A -> result N) (l : list A)
  : result (list A) :=
  decorated <- comprehension (fun x => k <- key x ;; Ok (k, x)) l ;;
  Ok (map snd (sort_by_key decorated)).

(** [elem in c_subset]. *)
Definition is_in (elem : entry) (c_subset : list string) : bool :=
  match elem with
  | Value (Some c) => existsb (String.eqb c) c_subset
  | Value None => false
  | EmptyList => false
  end.

(** [a.squeeze()]: the axes of length one are dropped. *)
Definition squeeze (a : DaskArray) : DaskArray :=
  {| content := content a;
     shape := filter (fun d => negb (d =? 1)%nat) (shape a) |}.

(** [f"{v}"] for an entry. *)
Definition format (v : entry) : string :=
  match v with
  | Value (Some s) => s
  | Value None => "None"
  | EmptyList => "[]"
  end.

(** [x == y] on two entries. *)
Definition eq_value (x y : entry) : bool :=
  match x, y with
  | Value (Some s), Value (Some t) => s =? t
  | Value None, Value None => true
  | EmptyList, EmptyList => true
  | _, _ => false
  end.

(** The triples of [zip(names, c_coords, imgs)] and their three columns,
    which line 80 and line 83 unpack. *)
Definition triple : Type := (string * entry * BioImage)%type.

Definition zip3 (names : list string) (c_coords : list entry)
  (imgs : list BioImage) : list triple :=
  combine (combine names c_coords) imgs.

Definition name_of (x : triple) : string := fst (fst x).
Definition c_coord_of (x : triple) : entry := snd (fst x).
Definition img_of (x : triple) : BioImage := snd x.

(** ** The reader *)

(** Lines 117-123. *)
Definition _get_structured_annotations (img : BioImage)
  (metadata_key : MacsimaKeys) : result (option string) :=
  let value :=
    flat_map (fun item =>
                match item metadata_key with
                | Some v => [v]
                | None => []
                end) (structured_annotations img) in
  match value with
  | [] => Ok None
  | v0 :: _ =>
      if forallb (fun x => x =? v0) value then Ok (Some v0)
      else Raise (AnnotationsNotEqual metadata_key)
  end.

(** Lines 132-138: the channel name of the image. *)
Definition get_channel_name (img : BioImage) : result string :=
  match channel_names img with
  | None => Raise ChannelNamesNotFound
  | Some channel_name =>
      match channel_name with
      | [channel_name0] =>
          if channel_name0 =? "" then Raise ChannelNameNotSpecified
          else Ok channel_name0
      | _ => Raise NotExactlyOneChannel
      end
  end.

(** Lines 140-148: the reagents entry of the row. [reagents] starts as
    [None] (line 140); with one screen it is what [getattr] gives (line
    145), and only a list that is not empty is replaced by the name of its
    one reagent (lines 146-148): an empty list stays in the row as it is. *)
Definition get_reagents (img : BioImage) : result entry :=
  match screens img with
  | None => Ok (Value None)
  | Some [screen] =>
      match reagents screen with
      | None => Ok (Value None)
      | Some [] => Ok EmptyList
      | Some [reagent] => Ok (Value (name reagent))
      | Some _ => Raise NotExactlyOneReagent
      end
  | Some _ => Raise NotExactlyOneScreen
  end.

(** Line 149: [a or b] evaluates [b] only when [a] is falsy. *)
Definition get_roi_id (img : BioImage) : result (option string) :=
  roi_id <- _get_structured_annotations img ROI_ID ;;
  if truthy roi_id then Ok roi_id
  else _get_structured_annotations img ROI_ID_deprecated.

(** Lines 126-150. The row returned is
    [[cycle, scantype, channel_name, roi_id, reagents]]. *)
Definition _get_metadata (img : BioImage) : result metadata_row :=
  cycle <- _get_structured_annotations img CYCLE ;;
  match cycle with
  | None => Raise CycleNotFound
  | Some _ =>
      scantype <- _get_structured_annotations img SCANTYPE ;;
      channel_name <- get_channel_name img ;;
      reagents <- get_reagents img ;;
      roi_id <- get_roi_id img ;;
      Ok [Value cycle; Value scantype; Value (Some channel_name);
          Value roi_id; reagents]
  end.

(** Lines 153-170. *)
Definition _parse_physical_size (pixels : option Pixels) : result float :=
  match pixels with
  | None => Raise PixelsIsNone
  | Some pixels =>
      if negb (UnitsLength_eqb (physical_size_x_unit pixels)
                               (physical_size_y_unit pixels))
      then Raise (NotImplemented UnitsNotTheSame)
      else if negb (physical_size_x pixels =? physical_size_y pixels)%float
      then Raise (NotImplemented SizesNotTheSame)
      else
        match physical_size_x_unit pixels with
        | NANOMETER => Ok (physical_size_x pixels / 1000)%float
        | MICROMETER => Ok (physical_size_x pixels)
        | u => Raise (NotImplemented (UnitNotRecognized u))
        end
  end.

(** The class [[a-zA-Z0-9_]]. *)
Definition is_word_char (c : ascii) : bool :=
  let n := nat_of_ascii c in
  (((97 <=? n) && (n <=? 122)) || ((65 <=? n) && (n <=? 90))
   || ((48 <=? n) && (n <=? 57)) || (n =? 95))%nat.

(** Lines 172-175: [re.sub(r'[^a-zA-Z0-9_]', '_', input_string)]. *)
Fixpoint _clean_string (input_string : string) : string :=
  match input_string with
  | String c s' =>
      String (if is_word_char c then c else "_"%char) (_clean_string s')
  | EmptyString => EmptyString
  end.

(** What the reader hands to its collaborators. *)
Inductive Transformation : Type :=
| Scale (factors : list float) (axes : list string)
| Identity.

(** The call [Image2DModel.parse(array, dims, c_coords, transformations)]
    and the key under which [SpatialData] stores its result:
    - [array]: the planes given to [da.stack], in stacking order;
    - [c_coords]: the labels of the channel axis;
    - [to_coordinate_system], [transformation]: the one entry of the
      [transformations] dictionary;
    - [image_name]: the key of the image in [images]. *)
Record SpatialData : Type := {
  image_name : string;
  array : list DaskArray;
  dims : list string;
  c_coords : list string;
  to_coordinate_system : string;
  transformation : Transformation
}.

(** The key of line 79. *)
Definition cycle_number (x : triple) : result N :=
  match number_pattern_match (name_of x) with
  | Some digits => Ok (int digits)
  | None => Raise NoLeadingDigits
  end.

(** Line 76. *)
Definition derived_name (name_parts : metadata_row) : string :=
  join "_" (truthy_parts name_parts).

(** Lines 82-86. The comprehension keeps the triples whose channel is in
    [c_subset]; the unpacking of line 83 needs three columns and so raises
    when none is kept. *)
Definition subset (c_subset : option (list string)) (l : list triple)
  : result (list triple) :=
  match c_subset with
  | Some ((_ :: _) as cs) =>
      match filter (fun x => is_in (c_coord_of x) cs) l with
      | [] => Raise NotEnoughValuesToUnpack
      | kept => Ok kept
      end
  | _ => Ok l
  end.

(** [_img.ome_metadata.images[0].pixels] normalised. *)
Definition pixel_size (img : BioImage) : result float :=
  match images img with
  | [] => Raise NoImage
  | pixels :: _ => _parse_physical_size pixels
  end.

(** Lines 94-95. *)
Fixpoint check_pixel_sizes (pixels_to_microns : float) (imgs : list BioImage)
  : result unit :=
  match imgs with
  | [] => Ok tt
  | _img :: imgs' =>
      p <- pixel_size _img ;;
      if (pixels_to_microns =? p)%float then
        check_pixel_sizes pixels_to_microns imgs'
      else Raise PhysicalSizeNotEqual
  end.

(** Lines 63-74: the ROI of the invocation; gives the name of the coordinate
    system and the name of the image, which is [None] when the first image
    has neither a description nor a ROI. *)
Definition roi_naming (image_name : option string) (roi : list entry)
  : result (string * option string) :=
  match nth 0 roi (Value None) with
  | Value None => Ok ("global", image_name)
  | roi_id =>
      if forallb (fun x => eq_value x roi_id) roi then
        Ok (("global_" ++ format roi_id)%string,
            Some (format image_name ++ "_" ++ format roi_id)%string)
      else Raise RoiNotEqual
  end.

(** Lines 58-114. [imgs] are the decoded files, in discovery order. *)
Definition macsima (imgs : list BioImage) (c_subset : option (list string))
  (transformations : bool) : result SpatialData :=
  match imgs with
  | [] => Raise NoFilesFound
  | img0 :: _ =>
      image_name <- match experiments img0 with
                    | [] => Raise NoExperiment
                    | description :: _ => Ok description
                    end ;;
      metadata <- comprehension _get_metadata imgs ;;            (* line 65 *)
      let c_coords := map (item 2) metadata in
      let roi := map (item 3) metadata in
      naming <- roi_naming image_name roi ;;                (* lines 68-74 *)
      let to_coordinate_system := fst naming in
      let image_name := snd naming in
      let names := map derived_name metadata in
      combined_sorted <- sorted cycle_number (zip3 names c_coords imgs) ;;
      kept <- subset c_subset combined_sorted ;;
      match kept with
      | [] => Raise EmptyAfterSubsetting            (* lines 88-89 *)
      | first :: _ =>                               (* [first] holds imgs[0] *)
          let names := map name_of kept in
          let imgs := map img_of kept in
          pixels_to_microns <- pixel_size (img_of first) ;;      (* line 92 *)
          _ <- check_pixel_sizes pixels_to_microns imgs ;;  (* lines 94-95 *)
          if dims_order (img_of first) =? "TCZYX" then           (* line 96 *)
            let array := map (fun _img => squeeze (image_dask_data _img)) imgs in
            let t_pixels_to_microns :=
              if transformations
              then Scale [pixels_to_microns; pixels_to_microns] ["x"; "y"]
              else Identity in
            match image_name with                              (* line 111 *)
            | None => Raise NameIsNone
            | Some image_name =>
                Ok {| image_name := _clean_string image_name;
                      array := array;
                      dims := ["c"; "y"; "x"];
                      c_coords := names;
                      to_coordinate_system := to_coordinate_system;
                      transformation := t_pixels_to_microns |}
            end
          else Raise DimsOrderNotTCZYX
      end
  end.

(** Lines 65-86 on their own: the triples that reach the physical size
    check, in their final order. [macsima] computes the same list (see
    [macsima_Ok]). *)
Definition retained (imgs : list BioImage) (c_subset : option (list string))
  : result (list triple) :=
  metadata <- comprehension _get_metadata imgs ;;
  combined_sorted <-
    sorted cycle_number
      (zip3 (map derived_name metadata) (map (item 2) metadata) imgs) ;;
  subset c_subset combined_sorted.

(** Whether line 85 keeps a triple. *)
Definition selected (c_subset : option (list string)) (x : triple) : bool :=
  match c_subset with
  | Some ((_ :: _) as cs) => is_in (c_coord_of x) cs
  | _ => true
  end.

(** The integer a name starts with, if any. *)
Definition leading_int (s : string) : option N :=
  option_map int (number_pattern_match s).

(** The key of an element whose key can be computed. *)
Definition total_key {A : Type} (key : A -> result N) (x : A) : N :=
  match key x with
  | Ok k => k
  | Raise _ => 0%N
  end.

(** The sort key of a triple whose name starts with a digit. *)
Definition key_of (x : triple) : N := total_key cycle_number x.

(** The decorated list [sorted] works on. *)
Definition decorate {A : Type} (key : A -> result N) (x : A) : N * A :=
  (total_key key x, x).

Definition well_keyed {A : Type} (key : A -> result N) (kx : N * A) : Prop :=
  fst kx = total_key key (snd kx).

(** The order the sort establishes on decorated elements. *)
Definition key_le {A : Type} (kx ky : N * A) : Prop := (fst kx <= fst ky)%N.

(** ** Example images *)

Module Examples.

Definition annotation (cycle scantype roi roi_deprecated : option string)
  : MacsimaKeys -> option string :=
  fun k =>
    match k with
    | CYCLE => cycle
    | SCANTYPE => scantype
    | ROI_ID => roi
    | ROI_ID_deprecated => roi_deprecated
    end.

Definition micrometers (size : float) : Pixels :=
  {| physical_size_x := size; physical_size_y := size;
     physical_size_x_unit := MICROMETER; physical_size_y_unit := MICROMETER |}.

Definition nanometers (size : float) : Pixels :=
  {| physical_size_x := size; physical_size_y := size;
     physical_size_x_unit := NANOMETER; physical_size_y_unit := NANOMETER |}.

(** One file of an acquisition: a single annotation, a single channel, no
    screen, a 1x1x1x4x4 array. *)
Definition acquisition (description : string) (cycle : string)
  (roi : option string) (channel : string) (pixels : Pixels)
  (order : string) (label : string) : BioImage :=
  {| experiments := [Some description];
     structured_annotations := [annotation (Some cycle) None roi None];
     channel_names := Some [channel];
     screens := None;
     images := [Some pixels];
     dims_order := order;
     image_dask_data := {| content := label; shape := [1; 1; 1; 4; 4] |} |}.

Definition dapi (cycle : string) (roi : option string) (label : string)
  : BioImage :=
  acquisition "Exp" cycle roi "DAPI" (micrometers 1) "TCZYX" label.

End Examples.

(** The images of the examples below. *)
Module Inputs.
Import Examples.

(** Cycles 3, 1, 2, all other fields alike. *)
Definition cycles_312 : list BioImage :=
  [dapi "3" None "c3"; dapi "1" None "c1"; dapi "2" None "c2"].

(** Two files of cycle 1 around one of cycle 0. *)
Definition ties : list BioImage :=
  [dapi "1" None "first"; dapi "0" None "zero"; dapi "01" None "second"].

(** A file that carries the ROI id R1. *)
Definition with_roi : BioImage := dapi "1" (Some "R1") "a".

(** A file without ROI id, and one of another cycle with the ROI id R1. *)
Definition no_roi : BioImage := dapi "1" None "a".
Definition roi_R1 : BioImage := dapi "2" (Some "R1") "b".

(** A file whose cycle annotation does not start with a digit. *)
Definition cycle_x1 : BioImage := dapi "x1" None "a".

(** Two channels with pixels of 0.5 and 1 micrometer. *)
Definition half_micron : BioImage :=
  acquisition "Exp" "1" None "DAPI" (micrometers 0.5) "TCZYX" "a".
Definition one_micron : BioImage :=
  acquisition "Exp" "2" None "CD3" (micrometers 1) "TCZYX" "b".


(** Files whose channel names are missing, empty, or two. *)
Definition channel_names_are (names : option (list string)) : BioImage :=
  {| experiments := [Some "Exp"];
     structured_annotations := [annotation (Some "1") None None None];
     channel_names := names;
     screens := None;
     images := [Some (micrometers 1)];
     dims_order := "TCZYX";
     image_dask_data := {| content := "a"; shape := [1; 1; 1; 4; 4] |} |}.

(** A description, a channel and a ROI id with characters outside the
    class of [_clean_string]. *)
Definition odd_names : BioImage :=
  acquisition "Exp #1" "1" (Some "R-1") "DAPI-x" (micrometers 1) "TCZYX" "a".

End Inputs.

(** ** The words of the specification *)

(** The non-empty parts among the given ones. *)
Definition nonempty_parts (parts : metadata_row) : list string :=
  flat_map (fun part =>
              match part with
              | Value (Some s) => if s =? "" then [] else [s]
              | Value None => []
              | EmptyList => []
              end) parts.

(** The parts, one underscore between two of them. *)
Fixpoint underscore_join (parts : list string) : string :=
  match parts with
  | [] => ""
  | [s] => s
  | s :: rest => (s ++ "_" ++ underscore_join rest)%string
  end.

(** The derived name as the specification words it: the ROI id is no part
    of it. *)
Definition DerivedName_spec (cycle scantype channel reagent : entry)
  : string :=
  underscore_join (nonempty_parts [cycle; scantype; channel; reagent]).

(** The derived name with the ROI id between channel and reagent. *)
Definition DerivedName_with_roi
  (cycle scantype channel roi reagent : entry) : string :=
  underscore_join (nonempty_parts [cycle; scantype; channel; roi; reagent]).

(** The two kinds of failure of the normalisation. *)
Definition unsupported_geometry (e : exception) : Prop :=
  e = NotImplemented UnitsNotTheSame \/ e = NotImplemented SizesNotTheSame.

Definition unrecognized_unit (e : exception) : Prop :=
  exists u, e = NotImplemented (UnitNotRecognized u).

(** The characters of the class [[A-Za-z0-9_]], one by one. *)
Definition word_chars : list ascii :=
  list_ascii_of_string
    "ABCDEFGHIJKLMNOPQRSTUVWXYZabcdefghijklmnopqrstuvwxyz0123456789_".

Definition sanitized (c : ascii) : ascii :=
  if existsb (Ascii.eqb c) word_chars then c else "_"%char.


(** ** Notions of the further properties *)

(** The values line 119 collects for a key. *)
Definition annotation_values (img : BioImage) (metadata_key : MacsimaKeys)
  : list string :=
  flat_map (fun item =>
              match item metadata_key with
              | Some v => [v]
              | None => []
              end) (structured_annotations img).

(** The exceptions of lines 117-150 and those of lines 153-170 with the
    subscript before them. *)
Definition from_metadata (e : exception) : bool :=
  match e with
  | AnnotationsNotEqual _ | CycleNotFound | ChannelNamesNotFound
  | NotExactlyOneChannel | ChannelNameNotSpecified | NotExactlyOneScreen
  | NotExactlyOneReagent => true
  | _ => false
  end.

Definition from_pixel_size (e : exception) : bool :=
  match e with
  | NoImage | PixelsIsNone | NotImplemented _ => true
  | _ => false
  end.

(** The row of an image whose metadata can be read, and its triple. *)
Definition row_of (img : BioImage) : metadata_row :=
  match _get_metadata img with
  | Ok row => row
  | Raise _ => []
  end.

Definition triple_of (img : BioImage) : triple :=
  (derived_name (row_of img), item 2 (row_of img), img).

(** The plane a triple contributes to the stack (line 97). *)
Definition plane_of (x : triple) : DaskArray :=
  squeeze (image_dask_data (img_of x)).

(** Strings of digits, and strings of the class of [_clean_string]. *)
Definition all_digits (s : string) : bool :=
  forallb is_digit (list_ascii_of_string s).

Definition starts_with_digit (s : string) : bool :=
  match s with
  | String c _ => is_digit c
  | EmptyString => false
  end.

Definition word_string (s : string) : bool :=
  forallb is_word_char (list_ascii_of_string s).



(** Further example files. *)
Module Cases.
Import Examples.

(** A file with the given annotations and screens, everything else as in
    [dapi]. *)
Definition annotated (annotations : list (MacsimaKeys -> option string))
  (the_screens : option (list Screen)) : BioImage :=
  {| experiments := [Some "Exp"];
     structured_annotations := annotations;
     channel_names := Some ["DAPI"];
     screens := the_screens;
     images := [Some (micrometers 1)];
     dims_order := "TCZYX";
     image_dask_data := {| content := "a"; shape := [1; 1; 1; 4; 4] |} |}.

(** The current ROI key says R1; two annotations disagree under the
    deprecated key. *)
Definition current_and_deprecated_roi : BioImage :=
  annotated [annotation (Some "1") None (Some "R1") (Some "old");
             annotation None None None (Some "older")] None.

(** No annotation carries a cycle. *)
Definition without_cycle : BioImage :=
  annotated [annotation None (Some "S") None None] None.

(** A list of screens that is there and empty. *)
Definition no_screen_in_list : BioImage :=
  annotated [annotation (Some "1") None None None] (Some []).

(** One screen, with a list of reagents that is there and empty. *)
Definition no_reagent_in_list : BioImage :=
  annotated [annotation (Some "1") None None None]
            (Some [{| reagents := Some [] |}]).


(** The first experiment has no description. *)
Definition undescribed (roi : option string) : BioImage :=
  {| experiments := [None];
     structured_annotations := [annotation (Some "1") None roi None];
     channel_names := Some ["DAPI"];
     screens := None;
     images := [Some (micrometers 1)];
     dims_order := "TCZYX";
     image_dask_data := {| content := "a"; shape := [1; 1; 1; 4; 4] |} |}.

End Cases.

(** ** Results and comprehensions *)

Lemma bind_Ok {A B : Type} (r : result A) (k : A -> result B) (b : B) :
  bind r k = Ok b -> exists a, r = Ok a /\ k a = Ok b.
Proof.
  destruct r as [a | e]; simpl; intros H.
  - exists a. split; [reflexivity | exact H].
  - discriminate H.
Qed.

Lemma result_cases {A : Type} (r : result A) :
  (exists a, r = Ok a) \/ fails r.
Proof.
  destruct r as [a | e]; [left; exists a | right; exists e]; reflexivity.
Qed.

Tactic Notation "bind_inv" hyp(H) "as" ident(a) ident(Ha) :=
  apply bind_Ok in H; destruct H as [a [Ha H]].

Section Comprehension.
Context {A B : Type} (f : A -> result B).

Lemma comprehension_Ok (l : list A) (bs : list B) :
  comprehension f l = Ok bs -> Forall2 (fun a b => f a = Ok b) l bs.
Proof.
  revert bs. induction l as [| a l IH]; simpl; intros bs H.
  - injection H as <-. constructor.
  - bind_inv H as b Hb. bind_inv H as bs' Hbs. injection H as <-.
    constructor; [assumption | apply IH; assumption].
Qed.

Lemma Forall2_comprehension (l : list A) (bs : list B) :
  Forall2 (fun a b => f a = Ok b) l bs -> comprehension f l = Ok bs.
Proof.
  induction 1 as [| a b l bs Hab _ IH]; simpl.
  - reflexivity.
  - rewrite Hab. simpl. rewrite IH. reflexivity.
Qed.


Lemma comprehension_In (l : list A) (bs : list B) (a : A) :
  comprehension f l = Ok bs -> In a l -> exists b, f a = Ok b /\ In b bs.
Proof.
  intros H. apply comprehension_Ok in H.
  induction H as [| a' b' l' bs' Hab _ IH]; simpl; intros Hin.
  - contradiction.
  - destruct Hin as [<- | Hin].
    + exists b'. split; [assumption | left; reflexivity].
    + destruct (IH Hin) as [b [Hb Hbin]].
      exists b. split; [assumption | right; assumption].
Qed.
End Comprehension.

(** ** The sort of line 79 *)

Section Sorting.
Context {A : Type}.
Implicit Types (kx : N * A) (l : list (N * A)).

Lemma insert_by_key_perm kx l : Permutation (kx :: l) (insert_by_key kx l).
Proof.
  induction l as [| ky l IH]; simpl.
  - apply Permutation_refl.
  - destruct (fst kx <=? fst ky)%N.
    + apply Permutation_refl.
    + eapply perm_trans; [apply perm_swap |].
      apply perm_skip. exact IH.
Qed.

Lemma sort_by_key_perm l : Permutation l (sort_by_key l).
Proof.
  induction l as [| kx l IH]; simpl.
  - constructor.
  - eapply perm_trans; [| apply insert_by_key_perm].
    apply perm_skip. exact IH.
Qed.

Lemma insert_by_key_sorted kx l :
  StronglySorted key_le l -> StronglySorted key_le (insert_by_key kx l).
Proof.
  induction 1 as [| ky l Hl IH Hky]; simpl.
  - constructor; constructor.
  - destruct (fst kx <=? fst ky)%N eqn:E.
    + apply N.leb_le in E.
      constructor.
      * constructor; assumption.
      * constructor; [exact E |].
        eapply Forall_impl; [| exact Hky].
        intros kz Hkz. unfold key_le in *. lia.
    + apply N.leb_gt in E.
      constructor; [exact IH |].
      apply (Permutation_Forall (insert_by_key_perm kx l)).
      constructor; [unfold key_le; lia | exact Hky].
Qed.

Lemma sort_by_key_sorted l : StronglySorted key_le (sort_by_key l).
Proof.
  induction l as [| kx l IH]; simpl.
  - constructor.
  - apply insert_by_key_sorted. exact IH.
Qed.

(** Stability: the elements of any one key keep their order. *)
Lemma insert_by_key_stable (k : N) kx l :
  filter (fun ky => fst ky =? k)%N (insert_by_key kx l)
  = filter (fun ky => fst ky =? k)%N (kx :: l).
Proof.
  induction l as [| ky l IH].
  - reflexivity.
  - cbn [insert_by_key].
    destruct (fst kx <=? fst ky)%N eqn:E; [reflexivity |].
    apply N.leb_gt in E.
    cbn [filter] in *. rewrite IH.
    destruct (fst ky =? k)%N eqn:Ey; [| reflexivity].
    apply N.eqb_eq in Ey.
    assert (Ex : (fst kx =? k)%N = false) by (apply N.eqb_neq; lia).
    rewrite Ex. reflexivity.
Qed.

Lemma sort_by_key_stable (k : N) l :
  filter (fun ky => fst ky =? k)%N (sort_by_key l)
  = filter (fun ky => fst ky =? k)%N l.
Proof.
  induction l as [| kx l IH].
  - reflexivity.
  - cbn [sort_by_key]. rewrite insert_by_key_stable.
    cbn [filter]. rewrite IH. reflexivity.
Qed.
End Sorting.

Section Sorted.
Context {A : Type} (key : A -> result N).

Lemma decorated_Ok (l : list A) (d : list (N * A)) :
  comprehension (fun x => k <- key x ;; Ok (k, x)) l = Ok d ->
  d = map (decorate key) l /\ Forall (fun x => key x = Ok (total_key key x)) l.
Proof.
  revert d. induction l as [| x l IH]; simpl; intros d H.
  - injection H as <-. split; constructor.
  - bind_inv H as kx Hkx. bind_inv Hkx as k Hk. injection Hkx as <-.
    bind_inv H as d' Hd'. injection H as <-.
    destruct (IH _ Hd') as [-> Hall].
    assert (Hx : total_key key x = k).
    { unfold total_key. rewrite Hk. reflexivity. }
    split.
    + rewrite <- Hx. reflexivity.
    + constructor; [rewrite Hx |]; assumption.
Qed.


Lemma well_keyed_sorted (d : list (N * A)) :
  Forall (well_keyed key) d -> StronglySorted key_le d ->
  StronglySorted (fun x y => (total_key key x <= total_key key y)%N) (map snd d).
Proof.
  intros Hwk Hs. induction Hs as [| kx d Hd IH Hkx]; simpl.
  - constructor.
  - inversion Hwk as [| ? ? Hx Hwk']; subst.
    constructor; [apply IH; assumption |].
    apply Forall_map.
    rewrite Forall_forall in *. intros ky Hin.
    specialize (Hkx ky Hin). specialize (Hwk' ky Hin).
    unfold key_le, well_keyed in *. congruence.
Qed.

Lemma well_keyed_filter (k : N) (d : list (N * A)) :
  Forall (well_keyed key) d ->
  filter (fun x => total_key key x =? k)%N (map snd d)
  = map snd (filter (fun kx => fst kx =? k)%N d).
Proof.
  induction 1 as [| kx d Hx _ IH]; simpl.
  - reflexivity.
  - unfold well_keyed in Hx. rewrite <- Hx, IH.
    destruct (fst kx =? k)%N; reflexivity.
Qed.

(** What a call of [sorted] that returns has done. *)
Lemma sorted_Ok (l l' : list A) :
  sorted key l = Ok l' ->
  Forall (fun x => key x = Ok (total_key key x)) l
  /\ Permutation l l'
  /\ StronglySorted (fun x y => (total_key key x <= total_key key y)%N) l'
  /\ forall k, filter (fun x => total_key key x =? k)%N l'
               = filter (fun x => total_key key x =? k)%N l.
Proof.
  unfold sorted. intros H. bind_inv H as d Hd. injection H as <-.
  destruct (decorated_Ok _ _ Hd) as [-> Hall].
  assert (Hwk : Forall (well_keyed key) (map (decorate key) l)).
  { apply Forall_map. apply Forall_forall. intros x _. reflexivity. }
  assert (Hwk' : Forall (well_keyed key) (sort_by_key (map (decorate key) l))).
  { apply (Permutation_Forall (sort_by_key_perm _)). exact Hwk. }
  assert (Hsnd : map snd (map (decorate key) l) = l).
  { rewrite map_map. apply map_id. }
  repeat split.
  - exact Hall.
  - rewrite <- Hsnd at 1. apply Permutation_map. apply sort_by_key_perm.
  - apply well_keyed_sorted; [exact Hwk' | apply sort_by_key_sorted].
  - intros k. rewrite (well_keyed_filter k _ Hwk').
    rewrite sort_by_key_stable.
    rewrite <- (well_keyed_filter k _ Hwk), Hsnd. reflexivity.
Qed.

End Sorted.

(** ** Lists *)

Section Filter.
Context {A : Type}.

Lemma filter_true (l : list A) : filter (fun _ => true) l = l.
Proof. induction l as [| a l IH]; simpl; congruence. Qed.

Lemma filter_comm (p q : A -> bool) (l : list A) :
  filter p (filter q l) = filter q (filter p l).
Proof.
  induction l as [| a l IH]; simpl; [reflexivity |].
  destruct (p a) eqn:Ep, (q a) eqn:Eq; simpl;
    rewrite ?Ep, ?Eq, IH; reflexivity.
Qed.

Lemma StronglySorted_filter (R : A -> A -> Prop) (p : A -> bool)
  (l : list A) :
  StronglySorted R l -> StronglySorted R (filter p l).
Proof.
  induction 1 as [| a l Hl IH Ha]; simpl.
  - constructor.
  - destruct (p a); [| exact IH].
    constructor; [exact IH |].
    rewrite Forall_forall in *. intros b Hb.
    apply filter_In in Hb. apply Ha. tauto.
Qed.
End Filter.

(** ** The triples of line 79 *)

Section Zip3.
Variables (g : metadata_row -> string)
          (h : metadata_row -> entry).

Lemma zip3_rows (imgs : list BioImage) (rows : list metadata_row) :
  Forall2 (fun img row => _get_metadata img = Ok row) imgs rows ->
  Forall (fun x => exists row,
              In (img_of x) imgs /\ _get_metadata (img_of x) = Ok row
              /\ name_of x = g row /\ c_coord_of x = h row)
         (zip3 (map g rows) (map h rows) imgs).
Proof.
  induction 1 as [| img row imgs rows Hrow _ IH]; simpl.
  - constructor.
  - constructor.
    + exists row. simpl. auto.
    + eapply Forall_impl; [| exact IH].
      intros x [row' [Hin H']]. exists row'. simpl. auto.
Qed.

Lemma zip3_imgs (imgs : list BioImage) (rows : list metadata_row) :
  Forall2 (fun img row => _get_metadata img = Ok row) imgs rows ->
  map img_of (zip3 (map g rows) (map h rows) imgs) = imgs.
Proof.
  induction 1 as [| img row imgs rows Hrow _ IH]; simpl.
  - reflexivity.
  - unfold zip3 in IH. rewrite IH. reflexivity.
Qed.

Lemma zip3_In (imgs : list BioImage) (rows : list metadata_row)
  (img : BioImage) (row : metadata_row) :
  Forall2 (fun img row => _get_metadata img = Ok row) imgs rows ->
  In img imgs -> _get_metadata img = Ok row ->
  In (g row, h row, img) (zip3 (map g rows) (map h rows) imgs).
Proof.
  induction 1 as [| img' row' imgs rows Hrow _ IH]; simpl; intros Hin Hm.
  - contradiction.
  - destruct Hin as [-> | Hin].
    + left. rewrite Hm in Hrow. injection Hrow as <-. reflexivity.
    + right. apply IH; assumption.
Qed.
End Zip3.

Lemma subset_Ok (c_subset : option (list string)) (l kept : list triple) :
  subset c_subset l = Ok kept -> kept = filter (selected c_subset) l.
Proof.
  unfold subset, selected.
  destruct c_subset as [[| c cs] |]; intros H.
  - injection H as <-. symmetry. apply filter_true.
  - destruct (filter _ l) as [| x kept'] eqn:E; [discriminate H |].
    injection H as <-. reflexivity.
  - injection H as <-. symmetry. apply filter_true.
Qed.

(** What [retained] returns: the triples of the images, sorted by cycle
    number without reordering equal numbers, the unselected ones removed. *)
Lemma retained_Ok (imgs : list BioImage) (c_subset : option (list string))
  (kept : list triple) :
  retained imgs c_subset = Ok kept ->
  exists metadata all,
    Forall2 (fun img row => _get_metadata img = Ok row) imgs metadata
    /\ all = zip3 (map derived_name metadata) (map (item 2) metadata) imgs
    /\ Forall (fun x => cycle_number x = Ok (key_of x)) all
    /\ Permutation (filter (selected c_subset) all) kept
    /\ StronglySorted (fun x y => (key_of x <= key_of y)%N) kept
    /\ forall k, filter (fun x => key_of x =? k)%N kept
                 = filter (fun x => key_of x =? k)%N
                          (filter (selected c_subset) all).
Proof.
  unfold retained. intros H.
  bind_inv H as metadata Hm. bind_inv H as combined Hs.
  apply subset_Ok in H. subst kept.
  apply comprehension_Ok in Hm.
  destruct (sorted_Ok _ _ _ Hs) as [Hkeys [Hperm [Hsorted Hstable]]].
  exists metadata, (zip3 (map derived_name metadata) (map (item 2) metadata) imgs).
  repeat split.
  - exact Hm.
  - exact Hkeys.
  - clear - Hperm. induction Hperm; simpl.
    + constructor.
    + destruct (selected c_subset x); [apply perm_skip |]; assumption.
    + destruct (selected c_subset x), (selected c_subset y);
        try apply perm_swap; apply Permutation_refl.
    + eapply perm_trans; eassumption.
  - apply StronglySorted_filter. exact Hsorted.
  - intros k. unfold key_of.
    rewrite filter_comm, Hstable. apply filter_comm.
Qed.

(** A call of [macsima] that returns has passed every check of the source;
    the values it met on the way are those of the conclusion. *)
Lemma macsima_Ok (imgs : list BioImage) (c_subset : option (list string))
  (transformations : bool) (out : SpatialData) :
  macsima imgs c_subset transformations = Ok out ->
  exists img0 rest description descriptions metadata first others p name,
    imgs = img0 :: rest
    /\ experiments img0 = description :: descriptions
    /\ comprehension _get_metadata imgs = Ok metadata
    /\ roi_naming description (map (item 3) metadata)
       = Ok (to_coordinate_system out, Some name)
    /\ retained imgs c_subset = Ok (first :: others)
    /\ pixel_size (img_of first) = Ok p
    /\ check_pixel_sizes p (map img_of (first :: others)) = Ok tt
    /\ dims_order (img_of first) = "TCZYX"
    /\ image_name out = _clean_string name
    /\ c_coords out = map name_of (first :: others)
    /\ array out = map (fun x => squeeze (image_dask_data (img_of x)))
                       (first :: others)
    /\ dims out = ["c"; "y"; "x"]
    /\ transformation out
       = if transformations then Scale [p; p] ["x"; "y"] else Identity.
Proof.
  unfold macsima. destruct imgs as [| img0 rest]; [discriminate |].
  intros H.
  bind_inv H as description Hd.
  destruct (experiments img0) as [| d descriptions] eqn:Hexp;
    [discriminate Hd |].
  injection Hd as ->.
  bind_inv H as metadata Hm. bind_inv H as naming Hn.
  bind_inv H as combined Hs. bind_inv H as kept Hk.
  destruct kept as [| first others]; [discriminate H |].
  bind_inv H as p Hp. bind_inv H as u Hc. destruct u.
  destruct (dims_order (img_of first) =? "TCZYX") eqn:Hdims;
    [| discriminate H].
  destruct naming as [cs name]. simpl in H.
  destruct name as [name |]; [| discriminate H].
  injection H as <-. simpl.
  exists img0, rest, description, descriptions, metadata, first, others, p,
    name.
  repeat split; try reflexivity; try assumption.
  - unfold retained. rewrite Hm. simpl. rewrite Hs. simpl. exact Hk.
  - apply String.eqb_eq. exact Hdims.
  - rewrite map_map. reflexivity.
Qed.

(** ** Metadata extraction *)

Lemma _get_metadata_Ok (img : BioImage) (row : metadata_row) :
  _get_metadata img = Ok row ->
  exists (cycle : string) (scantype : option string) (channel : string)
         (roi : option string) (reagent : entry),
    row = [Value (Some cycle); Value scantype; Value (Some channel);
           Value roi; reagent]
    /\ _get_structured_annotations img CYCLE = Ok (Some cycle)
    /\ _get_structured_annotations img SCANTYPE = Ok scantype
    /\ get_channel_name img = Ok channel
    /\ get_reagents img = Ok reagent
    /\ get_roi_id img = Ok roi.
Proof.
  unfold _get_metadata. intros H.
  bind_inv H as cycle Hcycle. destruct cycle as [cycle |]; [| discriminate H].
  bind_inv H as scantype Hscan. bind_inv H as channel Hchan.
  bind_inv H as reagent Hreag. bind_inv H as roi Hroi.
  injection H as <-.
  exists cycle, scantype, channel, roi, reagent. auto 10.
Qed.

Lemma _get_metadata_item_3 (img : BioImage) (row : metadata_row) :
  _get_metadata img = Ok row ->
  exists roi : option string, item 3 row = Value roi /\ get_roi_id img = Ok roi.
Proof.
  intros H.
  destruct (_get_metadata_Ok _ _ H)
    as (cycle & scantype & channel & roi & reagent & -> & _ & _ & _ & _
        & Hroi).
  exists roi. split; [reflexivity | exact Hroi].
Qed.

Lemma get_channel_name_Ok (img : BioImage) (c : string) :
  get_channel_name img = Ok c <-> channel_names img = Some [c] /\ c <> "".
Proof.
  unfold get_channel_name. split.
  - destruct (channel_names img) as [[| c0 [| c1 l]] |];
      try discriminate.
    destruct (c0 =? "") eqn:E; [discriminate |].
    intros H. injection H as <-.
    apply String.eqb_neq in E. auto.
  - intros [-> Hc]. apply String.eqb_neq in Hc. rewrite Hc. reflexivity.
Qed.

Lemma truthy_parts_nonempty (parts : metadata_row) :
  truthy_parts parts = nonempty_parts parts.
Proof.
  induction parts as [| [[s |] |] parts IH]; simpl;
    [reflexivity | | exact IH | exact IH].
  rewrite IH. destruct (s =? ""); reflexivity.
Qed.

Lemma join_underscore (parts : list string) :
  join "_" parts = underscore_join parts.
Proof.
  unfold join. induction parts as [| s [| s' parts] IH]; try reflexivity.
  cbn [concat underscore_join] in *. rewrite IH. reflexivity.
Qed.

Lemma derived_name_spec (cycle scantype channel roi reagent : entry) :
  derived_name [cycle; scantype; channel; roi; reagent]
  = DerivedName_with_roi cycle scantype channel roi reagent.
Proof.
  unfold derived_name, DerivedName_with_roi.
  rewrite join_underscore, truthy_parts_nonempty. reflexivity.
Qed.

Lemma cycle_number_leading_int (x : triple) (k : N) :
  cycle_number x = Ok k <-> leading_int (name_of x) = Some k.
Proof.
  unfold cycle_number, leading_int.
  destruct (number_pattern_match (name_of x)); simpl; split; intros H;
    try discriminate; injection H as <-; reflexivity.
Qed.

(** The rows and names of the triples [retained] returns. *)
Lemma retained_rows (imgs : list BioImage) (c_subset : option (list string))
  (kept : list triple) :
  retained imgs c_subset = Ok kept ->
  Forall (fun x => exists row,
              In (img_of x) imgs /\ _get_metadata (img_of x) = Ok row
              /\ name_of x = derived_name row /\ c_coord_of x = item 2 row
              /\ leading_int (name_of x) = Some (key_of x)
              /\ selected c_subset x = true) kept.
Proof.
  intros H. destruct (retained_Ok _ _ _ H)
    as [metadata [all [Hm [-> [Hkeys [Hperm _]]]]]].
  apply (Permutation_Forall Hperm).
  pose proof (zip3_rows derived_name (item 2) _ _ Hm) as Hrows.
  rewrite Forall_forall in *. intros x Hx.
  apply filter_In in Hx. destruct Hx as [Hx Hsel].
  destruct (Hrows x Hx) as [row [Hin [Hrow [Hname Hc]]]].
  exists row. repeat split; try assumption.
  apply cycle_number_leading_int. apply Hkeys. exact Hx.
Qed.

Lemma eq_value_eq (x y : entry) : eq_value x y = true <-> x = y.
Proof.
  destruct x as [[s |] |], y as [[t |] |]; simpl;
    try (split; [discriminate | discriminate]);
    try (split; reflexivity).
  rewrite String.eqb_eq. split; congruence.
Qed.

Lemma roi_naming_Ok (description : option string)
  (roi : list entry) (system : string) (name : option string) :
  roi_naming description roi = Ok (system, name) ->
  match nth 0 roi (Value None) with
  | Value None => system = "global" /\ name = description
  | roi_id =>
      system = ("global_" ++ format roi_id)%string
      /\ name = Some (format description ++ "_" ++ format roi_id)%string
      /\ Forall (fun x => x = roi_id) roi
  end.
Proof.
  assert (Hsome : forall first,
             (if forallb (fun x => eq_value x first) roi
              then Ok (("global_" ++ format first)%string,
                       Some (format description ++ "_" ++ format first)%string)
              else Raise RoiNotEqual) = Ok (system, name) ->
             system = ("global_" ++ format first)%string
             /\ name = Some (format description ++ "_" ++ format first)%string
             /\ Forall (fun x => x = first) roi).
  { intros first. destruct (forallb _ roi) eqn:E; [| discriminate].
    intros H. injection H as <- <-.
    split; [reflexivity |]. split; [reflexivity |].
    rewrite forallb_forall in E. apply Forall_forall. intros x Hx.
    apply eq_value_eq. apply E. exact Hx. }
  unfold roi_naming. destruct (nth 0 roi (Value None)) as [[roi_id |] |].
  - apply Hsome.
  - intros H. injection H as <- <-. auto.
  - apply Hsome.
Qed.

(** ** C1: the derived name *)

(** C1, as the source has it. For every invocation that returns, the labels
    of the channel axis are the names of the retained triples; the name of a
    triple is the underscore-join of the non-empty parts among cycle, scan
    type, channel name, ROI id and reagent name of its image, in this order,
    and the integer this name starts with is the key the triple was sorted
    by. The ROI id, when the image has a non-empty one, is a part of the
    name. *)
Theorem C1_derived_name_has_five_parts (imgs : list BioImage)
  (c_subset : option (list string)) (transformations : bool)
  (out : SpatialData) :
  macsima imgs c_subset transformations = Ok out ->
  exists kept,
    retained imgs c_subset = Ok kept
    /\ c_coords out = map name_of kept
    /\ Forall (fun x =>
                 cycle_number x = Ok (key_of x)
                 /\ leading_int (name_of x) = Some (key_of x)
                 /\ exists cycle scantype channel roi reagent,
                     _get_metadata (img_of x)
                     = Ok [cycle; scantype; channel; roi; reagent]
                     /\ name_of x
                        = DerivedName_with_roi cycle scantype channel roi
                                               reagent) kept.
Proof.
  intros H.
  destruct (macsima_Ok _ _ _ _ H)
    as (img0 & rest & d & ds & metadata & first & others & p & name
        & _ & _ & _ & _ & Hkept & _ & _ & _ & _ & Hc & _).
  exists (first :: others). split; [exact Hkept |]. split; [exact Hc |].
  eapply Forall_impl; [| apply (retained_rows _ _ _ Hkept)].
  intros x (row & _ & Hrow & Hname & _ & Hkey & _).
  split; [apply cycle_number_leading_int; exact Hkey |].
  split; [exact Hkey |].
  destruct (_get_metadata_Ok _ _ Hrow)
    as (cycle & scantype & channel & roi & reagent & -> & _).
  exists (Value (Some cycle)), (Value scantype), (Value (Some channel)),
    (Value roi), reagent.
  split; [exact Hrow |].
  rewrite Hname. apply derived_name_spec.
Qed.

Lemma C1_derived_name_has_five_parts_witness :
  exists out kept,
    macsima [Inputs.with_roi] None false = Ok out
    /\ retained [Inputs.with_roi] None = Ok kept
    /\ c_coords out = map name_of kept
    /\ map name_of kept = ["1_DAPI_R1"].
Proof.
  eexists.
  destruct (C1_derived_name_has_five_parts [Inputs.with_roi] None false _
              eq_refl) as [kept [Hkept [Hc _]]].
  exists kept. split; [reflexivity |]. split; [exact Hkept |].
  split; [exact Hc |]. rewrite <- Hc. reflexivity.
Defined.

(** C1 as the specification states it fails: the image of this invocation
    has cycle 1, channel DAPI and ROI id R1, no scan type and no reagent;
    its label is 1_DAPI_R1, not the join 1_DAPI of the four parts of the
    specification. *)
Lemma C1_counterexample :
  _get_metadata Inputs.with_roi
  = Ok [Some "1"; None; Some "DAPI"; Some "R1"; None]
  /\ DerivedName_spec (Some "1") None (Some "DAPI") None = "1_DAPI"
  /\ exists out,
      macsima [Inputs.with_roi] None false = Ok out
      /\ c_coords out = ["1_DAPI_R1"]
      /\ c_coords out
         <> [DerivedName_spec (Some "1") None (Some "DAPI") None].
Proof.
  split; [reflexivity |]. split; [reflexivity |].
  eexists. split; [reflexivity |]. split; [reflexivity |].
  discriminate.
Qed.

(** ** C2: the ROI check *)

(** What the check of lines 68-69 establishes: when the first file has a
    ROI id, every file has this ROI id. *)
Lemma roi_ids_of_a_returning_call (imgs : list BioImage)
  (c_subset : option (list string)) (transformations : bool)
  (out : SpatialData) :
  macsima imgs c_subset transformations = Ok out ->
  exists metadata,
    comprehension _get_metadata imgs = Ok metadata
    /\ match nth 0 (map (item 3) metadata) (Value None) with
       | Value None => to_coordinate_system out = "global"
       | roi_id => Forall (fun row => item 3 row = roi_id) metadata
       end.
Proof.
  intros H.
  destruct (macsima_Ok _ _ _ _ H)
    as (img0 & rest & d & ds & metadata & first & others & p & name
        & _ & _ & Hm & Hn & _).
  exists metadata. split; [exact Hm |].
  apply roi_naming_Ok in Hn.
  destruct (nth 0 (map (item 3) metadata) (Value None)) as [[roi_id |] |].
  - destruct Hn as (_ & _ & Hall). apply Forall_map in Hall. exact Hall.
  - destruct Hn as [Hsys _]. exact Hsys.
  - destruct Hn as (_ & _ & Hall). apply Forall_map in Hall. exact Hall.
Qed.

(** C2, the code at the failing input. The first file has no ROI id, the
    second has the ROI id R1: line 68 skips the check of line 69, the call
    returns under the coordinate system "global" and the name without ROI,
    while the label of the second channel carries R1. The same two files
    discovered in the other order fail the check of line 69. *)
Theorem C2_roi_check_skipped_when_first_has_none :
  _get_metadata Inputs.no_roi = Ok [Some "1"; None; Some "DAPI"; None; None]
  /\ _get_metadata Inputs.roi_R1
     = Ok [Some "2"; None; Some "DAPI"; Some "R1"; None]
  /\ (exists out,
        macsima [Inputs.no_roi; Inputs.roi_R1] None false = Ok out
        /\ to_coordinate_system out = "global"
        /\ image_name out = "Exp"
        /\ c_coords out = ["1_DAPI"; "2_DAPI_R1"])
  /\ macsima [Inputs.roi_R1; Inputs.no_roi] None false = Raise RoiNotEqual.
Proof.
  split; [reflexivity |]. split; [reflexivity |]. split; [| reflexivity].
  eexists. split; [reflexivity |]. repeat split.
Qed.

(** ** C3: the allow-list that retains nothing *)

Lemma bind_Raise {A B : Type} (r : result A) (k : A -> result B)
  (e : exception) :
  bind r k = Raise e -> r = Raise e \/ exists a, r = Ok a /\ k a = Raise e.
Proof.
  destruct r as [a | e']; simpl; intros H.
  - right. exists a. auto.
  - left. injection H as ->. reflexivity.
Qed.

Lemma comprehension_Raise {A B : Type} (f : A -> result B) (l : list A)
  (e : exception) :
  comprehension f l = Raise e -> exists a, In a l /\ f a = Raise e.
Proof.
  induction l as [| a l IH]; simpl; intros H; [discriminate H |].
  destruct (bind_Raise _ _ _ H) as [Ha | [b [_ H']]].
  - exists a. auto.
  - destruct (bind_Raise _ _ _ H') as [Hl | [bs [_ H'']]];
      [| discriminate H''].
    destruct (IH Hl) as [a' [Hin Ha']]. exists a'. auto.
Qed.

Tactic Notation "bind_raise" hyp(H) "as" ident(a) ident(Ha) :=
  apply bind_Raise in H; destruct H as [H | [a [Ha H]]].

Lemma _get_structured_annotations_Raise (img : BioImage) (k : MacsimaKeys)
  (e : exception) :
  _get_structured_annotations img k = Raise e -> e = AnnotationsNotEqual k.
Proof.
  unfold _get_structured_annotations.
  destruct (flat_map _ _) as [| v0 value]; [discriminate |].
  destruct (forallb _ _); [discriminate |].
  intros H. injection H as <-. reflexivity.
Qed.

Lemma _get_metadata_Raise (img : BioImage) (e : exception) :
  _get_metadata img = Raise e -> e <> EmptyAfterSubsetting.
Proof.
  unfold _get_metadata. intros H.
  bind_raise H as cycle Hcycle.
  { apply _get_structured_annotations_Raise in H. subst e. discriminate. }
  destruct cycle as [cycle |]; [| injection H as <-; discriminate].
  bind_raise H as scantype Hscan.
  { apply _get_structured_annotations_Raise in H. subst e. discriminate. }
  bind_raise H as channel Hchan.
  { unfold get_channel_name in H.
    destruct (channel_names img) as [[| c0 [| c1 l]] |];
      try (injection H as <-; discriminate).
    destruct (c0 =? ""); [injection H as <- |]; discriminate. }
  bind_raise H as reagent Hreag.
  { unfold get_reagents in H.
    destruct (screens img) as [[| s [| s' l]] |];
      try discriminate; try (injection H as <-; discriminate).
    destruct (reagents s) as [[| r [| r' l]] |];
      try discriminate; injection H as <-; discriminate. }
  bind_raise H as roi Hroi; [| discriminate H].
  unfold get_roi_id in H.
  bind_raise H as roi Hroi.
  { apply _get_structured_annotations_Raise in H. subst e. discriminate. }
  destruct (truthy roi); [discriminate H |].
  apply _get_structured_annotations_Raise in H. subst e. discriminate.
Qed.

Lemma sorted_Raise (l : list triple) (e : exception) :
  sorted cycle_number l = Raise e -> e = NoLeadingDigits.
Proof.
  unfold sorted. intros H.
  bind_raise H as d Hd; [| discriminate H].
  apply comprehension_Raise in H. destruct H as [x [_ H]].
  bind_raise H as k Hk; [| discriminate H].
  unfold cycle_number in H.
  destruct (number_pattern_match (name_of x)); [discriminate H |].
  injection H as <-. reflexivity.
Qed.

Lemma subset_Raise (c_subset : option (list string)) (l : list triple)
  (e : exception) :
  subset c_subset l = Raise e ->
  e = NotEnoughValuesToUnpack
  /\ exists c cs, c_subset = Some (c :: cs)
                  /\ filter (fun x => is_in (c_coord_of x) (c :: cs)) l = [].
Proof.
  unfold subset. destruct c_subset as [[| c cs] |]; try discriminate.
  destruct (filter _ l) eqn:E; [| discriminate].
  intros H. injection H as <-. split; [reflexivity |].
  exists c, cs. auto.
Qed.

Lemma subset_Ok_nil (c_subset : option (list string)) (l : list triple) :
  subset c_subset l = Ok [] -> l = [].
Proof.
  unfold subset. destruct c_subset as [[| c cs] |].
  - intros H. injection H as ->. reflexivity.
  - destruct (filter _ l); discriminate.
  - intros H. injection H as ->. reflexivity.
Qed.

Lemma pixel_size_Raise (img : BioImage) (e : exception) :
  pixel_size img = Raise e ->
  e = NoImage \/ e = PixelsIsNone \/ exists l, e = NotImplemented l.
Proof.
  unfold pixel_size, _parse_physical_size.
  destruct (images img) as [| [pixels |] l].
  - intros H. injection H as <-. auto.
  - destruct (negb _); [intros H; injection H as <-; eauto |].
    destruct (negb _); [intros H; injection H as <-; eauto |].
    destruct (physical_size_x_unit pixels); try discriminate;
      intros H; injection H as <-; eauto.
  - intros H. injection H as <-. auto.
Qed.

Lemma check_pixel_sizes_Raise (p : float) (imgs : list BioImage)
  (e : exception) :
  check_pixel_sizes p imgs = Raise e ->
  e = PhysicalSizeNotEqual
  \/ e = NoImage \/ e = PixelsIsNone \/ exists l, e = NotImplemented l.
Proof.
  induction imgs as [| img imgs IH]; simpl; intros H; [discriminate H |].
  bind_raise H as q Hq.
  - right. apply (pixel_size_Raise _ _ H).
  - destruct (p =? q)%float; [apply IH; exact H |].
    injection H as <-. auto.
Qed.

Lemma retained_nonempty (img0 : BioImage) (rest : list BioImage)
  (c_subset : option (list string)) :
  retained (img0 :: rest) c_subset <> Ok [].
Proof.
  unfold retained. intros H.
  bind_inv H as metadata Hm. bind_inv H as combined Hs.
  apply subset_Ok_nil in H. subst combined.
  destruct (sorted_Ok _ _ _ Hs) as [_ [Hperm _]].
  apply Permutation_sym, Permutation_nil in Hperm.
  apply comprehension_Ok in Hm.
  pose proof (zip3_imgs derived_name (item 2) _ _ Hm) as Himgs.
  rewrite Hperm in Himgs. discriminate Himgs.
Qed.

(** C3, the code at the failing input, and line 89 in general. No
    invocation raises the error of line 89: when the allow-list retains no
    image, the unpacking of line 83 has raised before line 88 is reached,
    and without an allow-list the channels are those of the files, of which
    there is at least one. The invocation of the second part has one file
    of channel DAPI and the allow-list CD3. *)
Theorem C3_line_89_is_never_reached :
  (forall imgs c_subset transformations,
      macsima imgs c_subset transformations <> Raise EmptyAfterSubsetting)
  /\ subset (Some ["CD3"]) [("1_DAPI", Some "DAPI", Inputs.no_roi)]
     = Raise NotEnoughValuesToUnpack
  /\ macsima [Inputs.no_roi] (Some ["CD3"]) false
     = Raise NotEnoughValuesToUnpack
  /\ class_of NotEnoughValuesToUnpack = ValueError.
Proof.
  split; [| repeat split].
  intros imgs c_subset transformations H.
  unfold macsima in H. destruct imgs as [| img0 rest]; [discriminate H |].
  bind_raise H as description Hd.
  { destruct (experiments img0); discriminate H. }
  bind_raise H as metadata Hm.
  { apply comprehension_Raise in H. destruct H as [img [_ H]].
    apply _get_metadata_Raise in H. auto. }
  bind_raise H as naming Hn.
  { unfold roi_naming in H.
    destruct (nth 0 _ (Value None)) as [[roi_id |] |];
      try discriminate H; destruct (forallb _ _); discriminate H. }
  bind_raise H as combined Hs.
  { apply sorted_Raise in H. discriminate H. }
  bind_raise H as kept Hk.
  { apply subset_Raise in H. destruct H as [H _]. discriminate H. }
  destruct kept as [| first others].
  - apply (retained_nonempty img0 rest c_subset).
    unfold retained. rewrite Hm. simpl. rewrite Hs. exact Hk.
  - bind_raise H as p Hp.
    { apply pixel_size_Raise in H.
      destruct H as [H | [H | [l H]]]; discriminate H. }
    bind_raise H as u Hu.
    { apply check_pixel_sizes_Raise in H.
      destruct H as [H | [H | [H | [l H]]]]; discriminate H. }
    destruct (dims_order _ =? "TCZYX"); [| discriminate H].
    destruct (snd naming); discriminate H.
Qed.

(** ** C4 and C10: the order of the channel axis *)

Lemma StronglySorted_map_le {A : Type} (f : A -> N) (l : list A) :
  StronglySorted (fun x y => (f x <= f y)%N) l ->
  StronglySorted N.le (map f l).
Proof.
  induction 1 as [| a l Hl IH Ha]; simpl; constructor.
  - exact IH.
  - apply Forall_map. exact Ha.
Qed.

Lemma retained_leading_ints (imgs : list BioImage)
  (c_subset : option (list string)) (kept : list triple) :
  retained imgs c_subset = Ok kept ->
  map leading_int (map name_of kept) = map Some (map key_of kept).
Proof.
  intros H. apply retained_rows in H.
  induction H as [| x kept (row & _ & _ & _ & _ & Hkey & _) _ IH]; simpl.
  - reflexivity.
  - rewrite Hkey, IH. reflexivity.
Qed.

(** C4. (1) For every invocation that returns, the labels of the channel
    axis and the planes of the stack are those of the retained triples, in
    one order, and the integers the labels start with are in ascending
    order. (2) An invocation with an image whose derived name does not
    start with a digit raises. (3) Files of cycles 3, 1, 2 with all other
    fields alike come out in the order 1, 2, 3. *)
Theorem C4_channels_in_ascending_cycle_order :
  (forall imgs c_subset transformations out,
      macsima imgs c_subset transformations = Ok out ->
      exists kept keys,
        retained imgs c_subset = Ok kept
        /\ c_coords out = map name_of kept
        /\ array out
           = map (fun x => squeeze (image_dask_data (img_of x))) kept
        /\ map leading_int (c_coords out) = map Some keys
        /\ StronglySorted N.le keys)
  /\ (forall imgs c_subset transformations img row,
         In img imgs -> _get_metadata img = Ok row ->
         leading_int (derived_name row) = None ->
         fails (macsima imgs c_subset transformations))
  /\ (exists out,
         macsima Inputs.cycles_312 None false = Ok out
         /\ c_coords out = ["1_DAPI"; "2_DAPI"; "3_DAPI"]
         /\ map content (array out) = ["c1"; "c2"; "c3"]).
Proof.
  split; [| split].
  - intros imgs c_subset transformations out H.
    destruct (macsima_Ok _ _ _ _ H)
      as (img0 & rest & d & ds & metadata & first & others & p & name
          & _ & _ & _ & _ & Hkept & _ & _ & _ & _ & Hc & Ha & _).
    exists (first :: others), (map key_of (first :: others)).
    repeat split; try assumption.
    + rewrite Hc. apply (retained_leading_ints _ _ _ Hkept).
    + apply StronglySorted_map_le.
      destruct (retained_Ok _ _ _ Hkept)
        as (metadata' & all & _ & _ & _ & _ & Hsorted & _).
      exact Hsorted.
  - intros imgs c_subset transformations img row Hin Hrow Hnone.
    destruct (result_cases (macsima imgs c_subset transformations))
      as [[out H] | Hf]; [exfalso | exact Hf].
    destruct (macsima_Ok _ _ _ _ H)
      as (img0 & rest & d & ds & metadata & first & others & p & name
          & _ & _ & _ & _ & Hkept & _).
    destruct (retained_Ok _ _ _ Hkept)
      as (metadata' & all & Hm & -> & Hkeys & _).
    pose proof (zip3_In derived_name (item 2) _ _ _ _ Hm Hin Hrow) as Hx.
    rewrite Forall_forall in Hkeys. apply Hkeys in Hx.
    apply cycle_number_leading_int in Hx.
    change (name_of (derived_name row, item 2 row, img))
      with (derived_name row) in Hx.
    rewrite Hnone in Hx. discriminate Hx.
  - eexists. split; [reflexivity |]. split; reflexivity.
Qed.

Lemma C4_channels_in_ascending_cycle_order_witness :
  (exists out kept keys,
      macsima Inputs.cycles_312 None false = Ok out
      /\ retained Inputs.cycles_312 None = Ok kept
      /\ map leading_int (c_coords out) = map Some keys
      /\ StronglySorted N.le keys)
  /\ In Inputs.cycle_x1 [Inputs.cycle_x1]
  /\ _get_metadata Inputs.cycle_x1
     = Ok [Some "x1"; None; Some "DAPI"; None; None]
  /\ leading_int (derived_name [Some "x1"; None; Some "DAPI"; None; None])
     = None
  /\ fails (macsima [Inputs.cycle_x1] None false).
Proof.
  destruct C4_channels_in_ascending_cycle_order as [Hsorted [Hfails _]].
  split.
  - eexists.
    destruct (Hsorted Inputs.cycles_312 None false _ eq_refl)
      as (kept & keys & Hkept & _ & _ & Hkeys & Hs).
    exists kept, keys. repeat split; assumption.
  - split; [left; reflexivity |]. split; [reflexivity |].
    split; [reflexivity |].
    apply (Hfails [Inputs.cycle_x1] None false Inputs.cycle_x1
             [Some "x1"; None; Some "DAPI"; None; None]);
      [left; reflexivity | reflexivity | reflexivity].
Defined.

(** C10. For every invocation that returns, the labels and the planes of
    the output are those of the retained triples, and for every integer [k]
    the retained triples whose name starts with [k] are, in the same order,
    the triples of the input list (in discovery order, the unselected ones
    removed) whose name starts with [k]. *)
Theorem C10_equal_cycles_keep_input_order (imgs : list BioImage)
  (c_subset : option (list string)) (transformations : bool)
  (out : SpatialData) :
  macsima imgs c_subset transformations = Ok out ->
  exists metadata kept,
    comprehension _get_metadata imgs = Ok metadata
    /\ c_coords out = map name_of kept
    /\ array out = map (fun x => squeeze (image_dask_data (img_of x))) kept
    /\ Forall (fun x => leading_int (name_of x) = Some (key_of x))
              (zip3 (map derived_name metadata) (map (item 2) metadata) imgs)
    /\ forall k,
        filter (fun x => key_of x =? k)%N kept
        = filter (fun x => key_of x =? k)%N
            (filter (selected c_subset)
               (zip3 (map derived_name metadata) (map (item 2) metadata)
                     imgs)).
Proof.
  intros H.
  destruct (macsima_Ok _ _ _ _ H)
    as (img0 & rest & d & ds & metadata & first & others & p & name
        & _ & _ & Hmeta & _ & Hkept & _ & _ & _ & _ & Hc & Ha & _).
  destruct (retained_Ok _ _ _ Hkept)
    as (metadata' & all & Hm & -> & Hkeys & _ & _ & Hstable).
  apply Forall2_comprehension in Hm. rewrite Hmeta in Hm.
  injection Hm as <-.
  exists metadata, (first :: others).
  repeat split; try assumption.
  eapply Forall_impl; [| exact Hkeys].
  intros x Hx. apply cycle_number_leading_int. exact Hx.
Qed.

Lemma C10_equal_cycles_keep_input_order_witness :
  exists out,
    macsima Inputs.ties None false = Ok out
    /\ c_coords out = ["0_DAPI"; "1_DAPI"; "01_DAPI"]
    /\ map content (array out) = ["zero"; "first"; "second"]
    /\ exists metadata kept,
        comprehension _get_metadata Inputs.ties = Ok metadata
        /\ c_coords out = map name_of kept
        /\ filter (fun x => key_of x =? 1)%N kept
           = filter (fun x => key_of x =? 1)%N
               (filter (selected None)
                  (zip3 (map derived_name metadata)
                        (map (item 2) metadata) Inputs.ties)).
Proof.
  eexists. split; [reflexivity |]. split; [reflexivity |].
  split; [reflexivity |].
  destruct (C10_equal_cycles_keep_input_order Inputs.ties None false _
              eq_refl) as (metadata & kept & Hm & Hc & _ & _ & Hstable).
  exists metadata, kept. repeat split; [exact Hm | exact Hc | apply Hstable].
Defined.

(** ** C5: the normalisation of the physical pixel size *)

Lemma UnitsLength_eqb_eq (u v : UnitsLength) :
  UnitsLength_eqb u v = true <-> u = v.
Proof.
  unfold UnitsLength_eqb.
  destruct (UnitsLength_eq_dec u v); split; congruence.
Qed.

(** C5. (1) With equal units and equal magnitudes the normalisation
    returns the magnitude divided by 1000 for nanometers and the magnitude
    itself for micrometers, and raises the unrecognized-unit error for every
    other unit. (2) With different units or different magnitudes it raises
    an unsupported-geometry error, whatever the units are. (3) 500
    nanometers give 0.5, and 1000 nanometers give what 1 micrometer
    gives. *)
Theorem C5_parse_physical_size :
  (forall (x y : float) (ux uy : UnitsLength),
      let pixels :=
        Some {| physical_size_x := x; physical_size_y := y;
                physical_size_x_unit := ux; physical_size_y_unit := uy |} in
      (ux = uy -> (x =? y)%float = true ->
       (ux = NANOMETER ->
        _parse_physical_size pixels = Ok (x / 1000)%float)
       /\ (ux = MICROMETER -> _parse_physical_size pixels = Ok x)
       /\ (ux <> NANOMETER -> ux <> MICROMETER ->
           _parse_physical_size pixels
           = Raise (NotImplemented (UnitNotRecognized ux))))
      /\ (ux <> uy \/ (x =? y)%float = false ->
          exists e,
            _parse_physical_size pixels = Raise e
            /\ unsupported_geometry e
            /\ class_of e = NotImplementedError))
  /\ _parse_physical_size (Some (Examples.nanometers 500)) = Ok 0.5%float
  /\ _parse_physical_size (Some (Examples.nanometers 1000))
     = _parse_physical_size (Some (Examples.micrometers 1)).
Proof.
  split; [| split; reflexivity].
  intros x y ux uy pixels. subst pixels. unfold _parse_physical_size.
  cbn [physical_size_x physical_size_y physical_size_x_unit
       physical_size_y_unit].
  split.
  - intros <- Hxy. rewrite Hxy.
    assert (Hu : UnitsLength_eqb ux ux = true)
      by (apply UnitsLength_eqb_eq; reflexivity).
    rewrite Hu. cbn [negb].
    split; [intros ->; reflexivity |].
    split; [intros ->; reflexivity |].
    intros Hn Hm. destruct ux; try reflexivity; congruence.
  - intros Hdiff.
    destruct (UnitsLength_eqb ux uy) eqn:Hu; cbn [negb].
    + destruct Hdiff as [Hne | Hxy].
      * apply UnitsLength_eqb_eq in Hu. contradiction.
      * rewrite Hxy. cbn [negb].
        exists (NotImplemented SizesNotTheSame).
        split; [reflexivity |]. split; [right |]; reflexivity.
    + exists (NotImplemented UnitsNotTheSame).
      split; [reflexivity |]. split; [left |]; reflexivity.
Qed.

Lemma C5_parse_physical_size_witness :
  (NANOMETER = NANOMETER /\ (500 =? 500)%float = true
   /\ _parse_physical_size (Some (Examples.nanometers 500))
      = Ok (500 / 1000)%float)
  /\ ((500 =? 600)%float = false
      /\ exists e,
          _parse_physical_size
            (Some {| physical_size_x := 500; physical_size_y := 600;
                     physical_size_x_unit := MICROMETER;
                     physical_size_y_unit := MICROMETER |}) = Raise e
          /\ unsupported_geometry e).
Proof.
  destruct C5_parse_physical_size as [H _].
  split.
  - split; [reflexivity |]. split; [reflexivity |].
    destruct (H 500%float 500%float NANOMETER NANOMETER) as [Hsame _].
    destruct (Hsame eq_refl eq_refl) as [Hnm _].
    exact (Hnm eq_refl).
  - split; [reflexivity |].
    destruct (H 500%float 600%float MICROMETER MICROMETER) as [_ Hdiff].
    destruct (Hdiff (or_intror eq_refl)) as [e [He [Hg _]]].
    exists e. split; assumption.
Defined.

(** ** Equality of floats, and the loop of lines 94-95 *)






Lemma check_pixel_sizes_Ok (p : float) (imgs : list BioImage) :
  check_pixel_sizes p imgs = Ok tt ->
  Forall (fun img => exists q, pixel_size img = Ok q /\ (p =? q)%float = true)
         imgs.
Proof.
  induction imgs as [| img imgs IH]; simpl; intros H; constructor.
  - bind_inv H as q Hq. exists q. split; [exact Hq |].
    destruct (p =? q)%float; [reflexivity | discriminate H].
  - bind_inv H as q Hq.
    destruct (p =? q)%float; [apply IH; exact H | discriminate H].
Qed.

(** ** Squeezing *)



(** ** C8: the channel name *)

(** C8. The extraction of the channel name (lines 132-138) returns exactly
    when the attribute is there with one entry that is not empty. It raises
    the AttributeError of line 134 when the attribute is missing, the
    ValueError of line 138 when the one entry is empty, and the
    AssertionError of line 135 when there is more than one entry. The
    channel name is the third entry of the row [_get_metadata] returns, and
    once cycle and scan type have been read, what the extraction raises is
    what [_get_metadata] raises. *)
Theorem C8_channel_name_extraction (img : BioImage) :
  ((exists c, get_channel_name img = Ok c)
   <-> (exists c, channel_names img = Some [c] /\ c <> ""))
  /\ (channel_names img = None ->
      get_channel_name img = Raise ChannelNamesNotFound)
  /\ (channel_names img = Some [""] ->
      get_channel_name img = Raise ChannelNameNotSpecified)
  /\ (forall l, channel_names img = Some l -> 1 < List.length l ->
                get_channel_name img = Raise NotExactlyOneChannel)
  /\ (class_of ChannelNamesNotFound = AttributeError
      /\ class_of ChannelNameNotSpecified = ValueError
      /\ class_of NotExactlyOneChannel = AssertionError)
  /\ (forall row, _get_metadata img = Ok row ->
                  exists c, get_channel_name img = Ok c
                            /\ item 2 row = Some c)
  /\ (forall cycle scantype e,
         _get_structured_annotations img CYCLE = Ok (Some cycle) ->
         _get_structured_annotations img SCANTYPE = Ok scantype ->
         get_channel_name img = Raise e ->
         _get_metadata img = Raise e).
Proof.
  split; [| split; [| split; [| split; [| split; [| split]]]]].
  - split; intros [c H]; exists c; apply get_channel_name_Ok; exact H.
  - unfold get_channel_name. intros ->. reflexivity.
  - unfold get_channel_name. intros ->. reflexivity.
  - unfold get_channel_name. intros l -> Hl.
    destruct l as [| c0 [| c1 l]]; simpl in Hl; try lia. reflexivity.
  - repeat split.
  - intros row H.
    destruct (_get_metadata_Ok _ _ H)
      as (cycle & scantype & channel & roi & reagent & -> & _ & _ & Hc & _).
    exists channel. split; [exact Hc | reflexivity].
  - intros cycle scantype e Hcycle Hscan He.
    unfold _get_metadata. rewrite Hcycle. cbn [bind].
    rewrite Hscan. cbn [bind]. rewrite He. reflexivity.
Qed.

Lemma C8_channel_name_extraction_witness :
  (channel_names Inputs.no_roi = Some ["DAPI"]
   /\ exists c, get_channel_name Inputs.no_roi = Ok c)
  /\ get_channel_name (Inputs.channel_names_are None)
     = Raise ChannelNamesNotFound
  /\ get_channel_name (Inputs.channel_names_are (Some [""]))
     = Raise ChannelNameNotSpecified
  /\ get_channel_name (Inputs.channel_names_are (Some ["DAPI"; "CD3"]))
     = Raise NotExactlyOneChannel
  /\ _get_metadata (Inputs.channel_names_are (Some ["DAPI"; "CD3"]))
     = Raise NotExactlyOneChannel
  /\ (_get_metadata Inputs.no_roi
      = Ok [Some "1"; None; Some "DAPI"; None; None]
      /\ exists c, get_channel_name Inputs.no_roi = Ok c
                   /\ item 2 [Some "1"; None; Some "DAPI"; None; None]
                      = Some c).
Proof.
  split; [| split; [| split; [| split; [| split]]]].
  - split; [reflexivity |].
    destruct (C8_channel_name_extraction Inputs.no_roi) as [[_ H] _].
    apply H. exists "DAPI". split; [reflexivity | discriminate].
  - destruct (C8_channel_name_extraction (Inputs.channel_names_are None))
      as (_ & H & _).
    apply H. reflexivity.
  - destruct (C8_channel_name_extraction
                (Inputs.channel_names_are (Some [""])))
      as (_ & _ & H & _).
    apply H. reflexivity.
  - destruct (C8_channel_name_extraction
                (Inputs.channel_names_are (Some ["DAPI"; "CD3"])))
      as (_ & _ & _ & H & _).
    apply (H ["DAPI"; "CD3"]); [reflexivity | simpl; lia].
  - destruct (C8_channel_name_extraction
                (Inputs.channel_names_are (Some ["DAPI"; "CD3"])))
      as (_ & _ & _ & _ & _ & _ & H).
    apply (H "1" None); reflexivity.
  - split; [reflexivity |].
    destruct (C8_channel_name_extraction Inputs.no_roi)
      as (_ & _ & _ & _ & _ & H & _).
    apply H. reflexivity.
Defined.

(** ** C9: the name of the image *)

Lemma is_word_char_spec (c : ascii) :
  is_word_char c = existsb (Ascii.eqb c) word_chars.
Proof.
  destruct c as [[] [] [] [] [] [] [] []]; reflexivity.
Qed.

(** [_clean_string] works character by character. *)
Lemma _clean_string_length (s : string) :
  String.length (_clean_string s) = String.length s.
Proof.
  induction s as [| c s IH]; simpl; congruence.
Qed.

Lemma _clean_string_get (s : string) (i : nat) :
  String.get i (_clean_string s) = option_map sanitized (String.get i s).
Proof.
  revert i. induction s as [| c s IH]; intros i; simpl.
  - reflexivity.
  - destruct i as [| i].
    + unfold sanitized. rewrite is_word_char_spec. reflexivity.
    + apply IH.
Qed.


(** C9. (1) For every invocation that returns, the name of the image is the
    sanitised composite name: the description of the first experiment of
    the first file (written as an f-string writes it), followed by an
    underscore and the ROI id when the first file has one, which is the ROI
    id line 68 finds; the name of the coordinate system is "global",
    followed by an underscore and the same ROI id as it is, and the channel
    labels are the derived names as they are. (2) Sanitising keeps the
    length and replaces, position by position, every character outside
    [A-Za-z0-9_] by an underscore. (3) The example of the specification.
    (4) An invocation whose channel label and coordinate system keep
    characters that the image name has lost. *)
Theorem C9_image_name_is_sanitized_composite :
  (forall img0 rest c_subset transformations out,
      macsima (img0 :: rest) c_subset transformations = Ok out ->
      exists description descriptions row0 kept,
        experiments img0 = description :: descriptions
        /\ _get_metadata img0 = Ok row0
        /\ match item 3 row0 with
           | Value (Some roi_id) =>
               image_name out
               = _clean_string (format description ++ "_" ++ roi_id)
               /\ to_coordinate_system out = ("global_" ++ roi_id)%string
           | Value None =>
               description = Some (format description)
               /\ image_name out = _clean_string (format description)
               /\ to_coordinate_system out = "global"
           | EmptyList => False
           end
        /\ retained (img0 :: rest) c_subset = Ok kept
        /\ c_coords out = map name_of kept
        /\ Forall (fun x => exists row,
                       _get_metadata (img_of x) = Ok row
                       /\ name_of x = derived_name row) kept)
  /\ (forall s,
         String.length (_clean_string s) = String.length s
         /\ forall i, String.get i (_clean_string s)
                      = option_map sanitized (String.get i s))
  /\ _clean_string "Exp #1 (ROI-2)" = "Exp__1__ROI_2_"
  /\ (exists out,
         macsima [Inputs.odd_names] None false = Ok out
         /\ image_name out = "Exp__1_R_1"
         /\ c_coords out = ["1_DAPI-x_R-1"]
         /\ to_coordinate_system out = "global_R-1").
Proof.
  split; [| split; [| split]].
  - intros img0 rest c_subset transformations out H.
    destruct (macsima_Ok _ _ _ _ H)
      as (img0' & rest' & d & ds & metadata & first & others & p & name
          & Himgs & Hexp & Hm & Hn & Hkept & _ & _ & _ & Hname & Hc & _).
    injection Himgs as <- <-.
    pose proof (comprehension_Ok _ _ _ Hm) as Hrows.
    inversion Hrows as [| ? row0 ? rows Hrow0 _]; subst.
    exists d, ds, row0, (first :: others).
    split; [exact Hexp |]. split; [exact Hrow0 |].
    split; [| split; [exact Hkept | split; [exact Hc |]]].
    + apply roi_naming_Ok in Hn. cbn [map nth] in Hn.
      change (nth 3 row0 (Value None)) with (item 3 row0) in Hn.
      destruct (_get_metadata_item_3 _ _ Hrow0) as [roi [Hroi _]].
      rewrite Hroi in *. destruct roi as [roi_id |].
      * destruct Hn as (Hsys & Hnm & _). injection Hnm as ->.
        split; [exact Hname | exact Hsys].
      * destruct Hn as [Hsys <-].
        repeat split; [exact Hname | exact Hsys].
    + eapply Forall_impl; [| apply (retained_rows _ _ _ Hkept)].
      intros x (row & _ & Hrow & Hnm & _). exists row. auto.
  - intros s. split; [apply _clean_string_length |].
    apply _clean_string_get.
  - reflexivity.
  - eexists. split; [reflexivity |]. repeat split.
Qed.

Lemma C9_image_name_is_sanitized_composite_witness :
  exists out description descriptions row0,
    macsima [Inputs.odd_names] (Some ["DAPI-x"]) true = Ok out
    /\ experiments Inputs.odd_names = description :: descriptions
    /\ _get_metadata Inputs.odd_names = Ok row0
    /\ image_name out = "Exp__1_R_1".
Proof.
  eexists.
  destruct C9_image_name_is_sanitized_composite as [H _].
  destruct (H Inputs.odd_names [] (Some ["DAPI-x"]) true _ eq_refl)
    as (description & descriptions & row0 & kept & Hexp & Hrow & _).
  exists description, descriptions, row0.
  split; [reflexivity |].
  split; [exact Hexp |]. split; [exact Hrow | reflexivity].
Defined.

(** ** Further properties: the structured annotations *)

Lemma forallb_false {A : Type} (f : A -> bool) (l : list A) :
  forallb f l = false -> exists x, In x l /\ f x = false.
Proof.
  induction l as [| a l IH]; simpl; [discriminate |].
  destruct (f a) eqn:E; simpl; intros H.
  - destruct (IH H) as [x [Hin Hx]]. exists x. auto.
  - exists a. auto.
Qed.

Lemma annotation_values_In (img : BioImage) (k : MacsimaKeys) (v : string) :
  In v (annotation_values img k)
  <-> exists item, In item (structured_annotations img) /\ item k = Some v.
Proof.
  unfold annotation_values. rewrite in_flat_map. split.
  - intros [item [Hin Hv]]. exists item. split; [exact Hin |].
    destruct (item k) as [w |]; simpl in Hv; [| contradiction].
    destruct Hv as [-> | []]. reflexivity.
  - intros [item [Hin Hv]]. exists item. split; [exact Hin |].
    rewrite Hv. left. reflexivity.
Qed.

Lemma _get_structured_annotations_values (img : BioImage) (k : MacsimaKeys) :
  _get_structured_annotations img k
  = match annotation_values img k with
    | [] => Ok None
    | v0 :: _ =>
        if forallb (fun x => x =? v0) (annotation_values img k)
        then Ok (Some v0)
        else Raise (AnnotationsNotEqual k)
    end.
Proof. reflexivity. Qed.

Lemma structured_annotation_lookup (img : BioImage) (k : MacsimaKeys) :
  (_get_structured_annotations img k = Ok None
   <-> Forall (fun item => item k = None) (structured_annotations img))
  /\ (forall v,
         _get_structured_annotations img k = Ok (Some v)
         <-> (exists item,
                 In item (structured_annotations img) /\ item k = Some v)
             /\ Forall (fun item => item k = None \/ item k = Some v)
                       (structured_annotations img))
  /\ (forall e,
         _get_structured_annotations img k = Raise e
         <-> e = AnnotationsNotEqual k
             /\ exists a b v w,
                 In a (structured_annotations img)
                 /\ In b (structured_annotations img)
                 /\ a k = Some v /\ b k = Some w /\ v <> w).
Proof.
  rewrite _get_structured_annotations_values.
  pose proof (annotation_values_In img k) as Hin.
  destruct (annotation_values img k) as [| v0 values] eqn:Hvalues.
  - assert (Hnone : Forall (fun item => item k = None)
                           (structured_annotations img)).
    { apply Forall_forall. intros item Hitem.
      destruct (item k) as [w |] eqn:Hw; [| reflexivity].
      exfalso. apply (proj2 (Hin w)). exists item. auto. }
    rewrite Forall_forall in Hnone.
    split; [| split].
    + split; [intros _; apply Forall_forall; exact Hnone | reflexivity].
    + intros v. split; [discriminate |].
      intros [[item [Hitem Hv]] _].
      rewrite (Hnone item Hitem) in Hv. discriminate Hv.
    + intros e. split; [discriminate |].
      intros [_ (a & b & v & w & Ha & _ & Hv & _)].
      rewrite (Hnone a Ha) in Hv. discriminate Hv.
  - destruct (proj1 (Hin v0) (or_introl eq_refl)) as [item0 [Hitem0 Hv0]].
    destruct (forallb (fun x => x =? v0) (v0 :: values)) eqn:Hall.
    + rewrite forallb_forall in Hall.
      assert (Hsame : forall item w,
                 In item (structured_annotations img) -> item k = Some w ->
                 w = v0).
      { intros item w Hitem Hw. apply String.eqb_eq. apply Hall.
        apply Hin. exists item. auto. }
      split; [| split].
      * split; [discriminate |]. intros Hnone.
        rewrite Forall_forall in Hnone.
        rewrite (Hnone item0 Hitem0) in Hv0. discriminate Hv0.
      * intros v. split.
        -- intros H. injection H as <-.
           split; [exists item0; auto |].
           apply Forall_forall. intros item Hitem.
           destruct (item k) as [w |] eqn:Hw; [right | left; reflexivity].
           rewrite (Hsame item w Hitem Hw). reflexivity.
        -- intros [[item [Hitem Hv]] _].
           rewrite (Hsame item v Hitem Hv). reflexivity.
      * intros e. split; [discriminate |].
        intros [_ (a & b & v & w & Ha & Hb & Hv & Hw & Hne)].
        rewrite (Hsame a v Ha Hv), (Hsame b w Hb Hw) in Hne.
        contradiction.
    + apply forallb_false in Hall. destruct Hall as [w [Hw Hne]].
      apply String.eqb_neq in Hne.
      destruct (proj1 (Hin w) Hw) as [item [Hitem Hitemw]].
      split; [| split].
      * split; [discriminate |]. intros Hnone.
        rewrite Forall_forall in Hnone.
        rewrite (Hnone item0 Hitem0) in Hv0. discriminate Hv0.
      * intros v. split; [discriminate |].
        intros [_ Hall]. rewrite Forall_forall in Hall.
        destruct (Hall item0 Hitem0) as [H0 | H0];
          rewrite Hv0 in H0; [discriminate H0 |].
        destruct (Hall item Hitem) as [H1 | H1];
          rewrite Hitemw in H1; [discriminate H1 |].
        congruence.
      * intros e. split.
        -- intros H. injection H as <-. split; [reflexivity |].
           exists item, item0, w, v0. auto.
        -- intros [-> _]. reflexivity.
Qed.

(** X1. What reading a key from the structured annotations gives. It is
    [None] exactly when no annotation carries the key; it is a value [v]
    exactly when some annotation carries [v] under the key and no
    annotation carries another value; it raises, and then the assertion of
    line 122, exactly when two annotations carry different values under
    the key. *)
Theorem X1_structured_annotation_lookup (img : BioImage) (k : MacsimaKeys) :
  (_get_structured_annotations img k = Ok None
   <-> Forall (fun item => item k = None) (structured_annotations img))
  /\ (forall v,
         _get_structured_annotations img k = Ok (Some v)
         <-> (exists item,
                 In item (structured_annotations img) /\ item k = Some v)
             /\ Forall (fun item => item k = None \/ item k = Some v)
                       (structured_annotations img))
  /\ (forall e,
         _get_structured_annotations img k = Raise e
         <-> e = AnnotationsNotEqual k
             /\ exists a b v w,
                 In a (structured_annotations img)
                 /\ In b (structured_annotations img)
                 /\ a k = Some v /\ b k = Some w /\ v <> w).
Proof. exact (structured_annotation_lookup img k). Qed.

(** ** Further properties: the metadata of one image *)

Lemma get_channel_name_Raise (img : BioImage) (e : exception) :
  get_channel_name img = Raise e ->
  e = ChannelNamesNotFound \/ e = NotExactlyOneChannel
  \/ e = ChannelNameNotSpecified.
Proof.
  unfold get_channel_name.
  destruct (channel_names img) as [[| c0 [| c1 l]] |];
    try (intros H; injection H as <-; auto).
  destruct (c0 =? ""); [intros H; injection H as <-; auto | discriminate].
Qed.

Lemma get_reagents_Raise (img : BioImage) (e : exception) :
  get_reagents img = Raise e ->
  e = NotExactlyOneScreen \/ e = NotExactlyOneReagent.
Proof.
  unfold get_reagents.
  destruct (screens img) as [[| s [| s' l]] |];
    try discriminate; try (intros H; injection H as <-; auto).
  destruct (reagents s) as [[| r [| r' l]] |];
    try discriminate; intros H; injection H as <-; auto.
Qed.

Lemma get_roi_id_Raise (img : BioImage) (e : exception) :
  get_roi_id img = Raise e ->
  e = AnnotationsNotEqual ROI_ID \/ e = AnnotationsNotEqual ROI_ID_deprecated.
Proof.
  unfold get_roi_id. intros H. bind_raise H as roi Hroi.
  - left. apply (_get_structured_annotations_Raise _ _ _ H).
  - destruct (truthy roi); [discriminate H |].
    right. apply (_get_structured_annotations_Raise _ _ _ H).
Qed.

(** The stages of [_get_metadata], in the order of the source. *)
Lemma _get_metadata_Raise_stage (img : BioImage) (e : exception) :
  _get_metadata img = Raise e ->
  _get_structured_annotations img CYCLE = Raise e
  \/ (_get_structured_annotations img CYCLE = Ok None /\ e = CycleNotFound)
  \/ exists cycle,
      _get_structured_annotations img CYCLE = Ok (Some cycle)
      /\ (_get_structured_annotations img SCANTYPE = Raise e
          \/ get_channel_name img = Raise e
          \/ get_reagents img = Raise e
          \/ get_roi_id img = Raise e).
Proof.
  unfold _get_metadata. intros H.
  bind_raise H as cycle Hcycle; [left; exact H |].
  destruct cycle as [cycle |];
    [| right; left; injection H as <-; auto].
  right. right. exists cycle. split; [exact Hcycle |].
  bind_raise H as scantype Hscan; [auto |].
  bind_raise H as channel Hchan; [auto |].
  bind_raise H as reagent Hreag; [auto |].
  bind_raise H as roi Hroi; [auto | discriminate H].
Qed.

Lemma _get_metadata_from (img : BioImage) (e : exception) :
  _get_metadata img = Raise e -> from_metadata e = true.
Proof.
  intros H. apply _get_metadata_Raise_stage in H.
  destruct H as [H | [[_ ->] | [cycle [_ [H | [H | [H | H]]]]]]].
  - apply _get_structured_annotations_Raise in H. subst e. reflexivity.
  - reflexivity.
  - apply _get_structured_annotations_Raise in H. subst e. reflexivity.
  - apply get_channel_name_Raise in H.
    destruct H as [-> | [-> | ->]]; reflexivity.
  - apply get_reagents_Raise in H. destruct H as [-> | ->]; reflexivity.
  - apply get_roi_id_Raise in H. destruct H as [-> | ->]; reflexivity.
Qed.

(** X2. The cycle is required and nothing else stands in for it:
    [_get_metadata] raises the assertion of line 129 exactly when no
    annotation of the image carries a cycle, and the first entry of a row
    it returns is a cycle that some annotation carries. *)
Theorem X2_cycle_is_required (img : BioImage) :
  (_get_metadata img = Raise CycleNotFound
   <-> Forall (fun item => item CYCLE = None) (structured_annotations img))
  /\ class_of CycleNotFound = AssertionError
  /\ (forall row,
         _get_metadata img = Ok row ->
         exists cycle annotation,
           item 0 row = Some cycle
           /\ In annotation (structured_annotations img)
           /\ annotation CYCLE = Some cycle).
Proof.
  destruct (structured_annotation_lookup img CYCLE) as (Hnone & Hsome & _).
  split; [| split; [reflexivity |]].
  - split.
    + intros H. apply Hnone. apply _get_metadata_Raise_stage in H.
      destruct H as [H | [[H _] | [cycle [_ [H | [H | [H | H]]]]]]].
      * apply _get_structured_annotations_Raise in H. discriminate H.
      * exact H.
      * apply _get_structured_annotations_Raise in H. discriminate H.
      * apply get_channel_name_Raise in H.
        destruct H as [H | [H | H]]; discriminate H.
      * apply get_reagents_Raise in H. destruct H as [H | H]; discriminate H.
      * apply get_roi_id_Raise in H. destruct H as [H | H]; discriminate H.
    + intros H. apply Hnone in H. unfold _get_metadata. rewrite H.
      reflexivity.
  - intros row H.
    destruct (_get_metadata_Ok _ _ H)
      as (cycle & scantype & channel & roi & reagent & -> & Hc & _).
    apply Hsome in Hc. destruct Hc as [[annotation [Hin Hitem]] _].
    exists cycle, annotation. auto.
Qed.

(** X3. The ROI id of an image. A non-empty value under the current key,
    on which the annotations agree, is the ROI id, whatever the
    annotations carry under the deprecated key, even values that disagree.
    When no annotation carries the current key, or the value under it is
    the empty string, the ROI id is what reading the deprecated key gives.
    It is the fourth entry of the row [_get_metadata] returns. *)
Theorem X3_current_roi_key_is_preferred (img : BioImage) :
  (forall v,
      (exists item, In item (structured_annotations img)
                    /\ item ROI_ID = Some v) ->
      Forall (fun item => item ROI_ID = None \/ item ROI_ID = Some v)
             (structured_annotations img) ->
      (v <> "" -> get_roi_id img = Ok (Some v))
      /\ (v = "" ->
          get_roi_id img
          = _get_structured_annotations img ROI_ID_deprecated))
  /\ (Forall (fun item => item ROI_ID = None) (structured_annotations img) ->
      get_roi_id img = _get_structured_annotations img ROI_ID_deprecated)
  /\ (forall row, _get_metadata img = Ok row ->
                  exists roi : option string,
                    item 3 row = roi /\ get_roi_id img = Ok roi).
Proof.
  destruct (structured_annotation_lookup img ROI_ID) as (Hnone & Hsome & _).
  split; [| split].
  - intros v Hex Hall.
    assert (H : _get_structured_annotations img ROI_ID = Ok (Some v))
      by (apply Hsome; auto).
    unfold get_roi_id. rewrite H. cbn [bind truthy]. split.
    + intros Hv. apply String.eqb_neq in Hv. rewrite Hv. reflexivity.
    + intros ->. reflexivity.
  - intros Hall. apply Hnone in Hall. unfold get_roi_id. rewrite Hall.
    reflexivity.
  - intros row H. apply (_get_metadata_item_3 _ _ H).
Qed.

Lemma X3_current_roi_key_is_preferred_witness :
  fails (_get_structured_annotations Cases.current_and_deprecated_roi
           ROI_ID_deprecated)
  /\ get_roi_id Cases.current_and_deprecated_roi = Ok (Some "R1")
  /\ get_roi_id Cases.without_cycle
     = _get_structured_annotations Cases.without_cycle ROI_ID_deprecated.
Proof.
  split; [eexists; reflexivity |]. split.
  - destruct (X3_current_roi_key_is_preferred
                Cases.current_and_deprecated_roi) as [H _].
    refine (proj1 (H "R1" _ _) _).
    + eexists. split; [left; reflexivity | reflexivity].
    + constructor; [right; reflexivity |].
      constructor; [left; reflexivity | constructor].
    + discriminate.
  - destruct (X3_current_roi_key_is_preferred Cases.without_cycle)
      as (_ & H & _).
    apply H. constructor; [reflexivity | constructor].
Defined.

(** X4. Screens and reagents. An image whose list of screens is there but
    has not exactly one screen, or whose one screen has more than one
    reagent, has no metadata: [_get_metadata] raises. The last entry of a
    row it returns is [None] when there is no list of screens or the one
    screen has no list of reagents, the empty list when the one screen has
    an empty list of reagents, and the name of the reagent when the one
    screen has one reagent. *)
Theorem X4_one_screen_one_reagent (img : BioImage) :
  (forall l, screens img = Some l -> List.length l <> 1 ->
             fails (_get_metadata img))
  /\ (forall s l, screens img = Some [s] -> reagents s = Some l ->
                  1 < List.length l -> fails (_get_metadata img))
  /\ (forall row,
         _get_metadata img = Ok row ->
         (screens img = None -> item 4 row = Value None)
         /\ (forall s, screens img = Some [s] -> reagents s = None ->
                       item 4 row = Value None)
         /\ (forall s, screens img = Some [s] -> reagents s = Some [] ->
                       item 4 row = EmptyList)
         /\ (forall s r, screens img = Some [s] -> reagents s = Some [r] ->
                         item 4 row = Value (name r))).
Proof.
  assert (Hrow : forall row,
             _get_metadata img = Ok row -> get_reagents img = Ok (item 4 row)).
  { intros row H.
    destruct (_get_metadata_Ok _ _ H)
      as (cycle & scantype & channel & roi & reagent & -> & _ & _ & _ & Hr
          & _).
    exact Hr. }
  split; [| split].
  - intros l Hl Hlen.
    destruct (result_cases (_get_metadata img)) as [[row H] | Hf];
      [exfalso | exact Hf].
    apply Hrow in H. unfold get_reagents in H. rewrite Hl in H.
    destruct l as [| s [| s' l]]; try discriminate H.
    apply Hlen. reflexivity.
  - intros s l Hs Hl Hlen.
    destruct (result_cases (_get_metadata img)) as [[row H] | Hf];
      [exfalso | exact Hf].
    apply Hrow in H. unfold get_reagents in H. rewrite Hs, Hl in H.
    destruct l as [| r [| r' l]]; try discriminate H; simpl in Hlen; lia.
  - intros row H. apply Hrow in H. unfold get_reagents in H.
    split; [| split; [| split]].
    + intros Hs. rewrite Hs in H. injection H as <-. reflexivity.
    + intros s Hs Hr. rewrite Hs, Hr in H. injection H as <-. reflexivity.
    + intros s Hs Hr. rewrite Hs, Hr in H. injection H as <-. reflexivity.
    + intros s r Hs Hr. rewrite Hs, Hr in H. injection H as <-.
      reflexivity.
Qed.

Lemma X4_one_screen_one_reagent_witness :
  (screens Cases.no_screen_in_list = Some []
   /\ fails (_get_metadata Cases.no_screen_in_list)
   /\ _get_metadata Cases.no_screen_in_list = Raise NotExactlyOneScreen)
  /\ (_get_metadata Cases.no_reagent_in_list
      = Ok [Value (Some "1"); Value None; Value (Some "DAPI"); Value None;
            EmptyList]
      /\ item 4 [Value (Some "1"); Value None; Value (Some "DAPI");
                 Value None; EmptyList] = EmptyList
      /\ derived_name [Value (Some "1"); Value None; Value (Some "DAPI");
                       Value None; EmptyList] = "1_DAPI").
Proof.
  split.
  - split; [reflexivity |]. split; [| reflexivity].
    destruct (X4_one_screen_one_reagent Cases.no_screen_in_list) as [H _].
    apply (H []); [reflexivity | discriminate].
  - split; [reflexivity |]. split; [| reflexivity].
    destruct (X4_one_screen_one_reagent Cases.no_reagent_in_list)
      as (_ & _ & H).
    destruct (H _ eq_refl) as (_ & _ & Hempty & _).
    apply (Hempty {| reagents := Some [] |}); reflexivity.
Defined.

Lemma X2_cycle_is_required_witness :
  Forall (fun item => item CYCLE = None)
         (structured_annotations Cases.without_cycle)
  /\ _get_metadata Cases.without_cycle = Raise CycleNotFound.
Proof.
  assert (H : Forall (fun item => item CYCLE = None)
                     (structured_annotations Cases.without_cycle))
    by (constructor; [reflexivity | constructor]).
  split; [exact H |].
  apply (proj2 (proj1 (X2_cycle_is_required Cases.without_cycle))). exact H.
Defined.

(** ** Further properties: the stages of the call *)

(** [macsima] as a sequence of stages: discovery, description, metadata,
    ROI, sort and subsetting, pixel sizes, dimension order, name. *)
Lemma macsima_stages (imgs : list BioImage) (c_subset : option (list string))
  (transformations : bool) :
  macsima imgs c_subset transformations
  = match imgs with
    | [] => Raise NoFilesFound
    | img0 :: _ =>
        match experiments img0 with
        | [] => Raise NoExperiment
        | description :: _ =>
            metadata <- comprehension _get_metadata imgs ;;
            naming <- roi_naming description (map (item 3) metadata) ;;
            kept <- retained imgs c_subset ;;
            match kept with
            | [] => Raise EmptyAfterSubsetting
            | first :: _ =>
                p <- pixel_size (img_of first) ;;
                _ <- check_pixel_sizes p (map img_of kept) ;;
                if dims_order (img_of first) =? "TCZYX" then
                  match snd naming with
                  | None => Raise NameIsNone
                  | Some name =>
                      Ok {| image_name := _clean_string name;
                            array := map plane_of kept;
                            dims := ["c"; "y"; "x"];
                            c_coords := map name_of kept;
                            to_coordinate_system := fst naming;
                            transformation :=
                              if transformations
                              then Scale [p; p] ["x"; "y"]
                              else Identity |}
                  end
                else Raise DimsOrderNotTCZYX
            end
        end
    end.
Proof.
  unfold macsima, retained.
  destruct imgs as [| img0 rest]; [reflexivity |].
  destruct (experiments img0) as [| description descriptions];
    [reflexivity |].
  cbn [bind].
  destruct (comprehension _get_metadata (img0 :: rest)) as [metadata | e];
    [| reflexivity].
  cbn [bind].
  destruct (roi_naming description (map (item 3) metadata))
    as [naming | e]; [| reflexivity].
  cbn [bind].
  destruct (sorted cycle_number _) as [combined | e]; [| reflexivity].
  cbn [bind].
  destruct (subset c_subset combined) as [[| first others] | e];
    try reflexivity.
  cbn [bind].
  destruct (pixel_size (img_of first)) as [p | e]; [| reflexivity].
  cbn [bind].
  destruct (check_pixel_sizes p _) as [u | e]; [| reflexivity].
  cbn [bind].
  destruct (dims_order (img_of first) =? "TCZYX"); [| reflexivity].
  destruct (snd naming); [| reflexivity].
  unfold plane_of. rewrite map_map. reflexivity.
Qed.

Lemma comprehension_first_failure {A B : Type} (f : A -> result B)
  (good : list A) (bad : A) (rest : list A) (e : exception) :
  Forall (fun a => exists b, f a = Ok b) good -> f bad = Raise e ->
  comprehension f (good ++ bad :: rest) = Raise e.
Proof.
  induction 1 as [| a good [b Hb] _ IH]; simpl; intros Hbad.
  - rewrite Hbad. reflexivity.
  - rewrite Hb. cbn [bind]. rewrite (IH Hbad). reflexivity.
Qed.

Lemma comprehension_fails {A B : Type} (f : A -> result B) (l : list A)
  (a : A) :
  In a l -> fails (f a) -> fails (comprehension f l).
Proof.
  intros Hin [e He].
  destruct (result_cases (comprehension f l)) as [[bs H] | Hf];
    [exfalso | exact Hf].
  destruct (comprehension_In _ _ _ _ H Hin) as [b [Hb _]].
  rewrite He in Hb. discriminate Hb.
Qed.

(** X5. The metadata of every file is read before anything is dropped: a
    file whose metadata cannot be read makes the call raise, also a file
    that the allow-list would exclude; and when the first file has an
    experiment and the files before the failing one can be read, the call
    raises what reading that file raises. *)
Theorem X5_unreadable_metadata_fails_the_call (imgs : list BioImage)
  (c_subset : option (list string)) (transformations : bool) :
  (forall img, In img imgs -> fails (_get_metadata img) ->
               fails (macsima imgs c_subset transformations))
  /\ (forall good bad rest description descriptions e,
         imgs = good ++ bad :: rest ->
         experiments (hd bad good) = description :: descriptions ->
         Forall (fun img => exists row, _get_metadata img = Ok row) good ->
         _get_metadata bad = Raise e ->
         macsima imgs c_subset transformations = Raise e).
Proof.
  split.
  - intros img Hin Hf. rewrite macsima_stages.
    destruct imgs as [| img0 rest]; [contradiction |].
    destruct (experiments img0); [eexists; reflexivity |].
    destruct (comprehension_fails _get_metadata _ _ Hin Hf) as [e He].
    rewrite He. exists e. reflexivity.
  - intros good bad rest description descriptions e -> Hexp Hgood Hbad.
    rewrite macsima_stages.
    rewrite (comprehension_first_failure _ _ _ _ _ Hgood Hbad).
    destruct good as [| img0 good]; simpl in *; rewrite Hexp; reflexivity.
Qed.

Lemma X5_unreadable_metadata_fails_the_call_witness :
  fails (_get_metadata Cases.without_cycle)
  /\ fails (macsima [Inputs.no_roi; Cases.without_cycle] (Some ["DAPI"])
                    false)
  /\ macsima [Inputs.no_roi; Cases.without_cycle; Cases.no_screen_in_list]
             None true
     = Raise CycleNotFound.
Proof.
  split; [eexists; reflexivity |]. split.
  - destruct (X5_unreadable_metadata_fails_the_call
                [Inputs.no_roi; Cases.without_cycle] (Some ["DAPI"]) false)
      as [H _].
    apply (H Cases.without_cycle);
      [right; left; reflexivity | eexists; reflexivity].
  - destruct (X5_unreadable_metadata_fails_the_call
                [Inputs.no_roi; Cases.without_cycle; Cases.no_screen_in_list]
                None true) as [_ H].
    apply (H [Inputs.no_roi] Cases.without_cycle [Cases.no_screen_in_list]
             (Some "Exp") []).
    + reflexivity.
    + reflexivity.
    + constructor; [eexists; reflexivity | constructor].
    + reflexivity.
Defined.

(** ** Further properties: the channels of the output *)

Lemma zip3_triple_of (imgs : list BioImage)
  (rows : list metadata_row) :
  Forall2 (fun img row => _get_metadata img = Ok row) imgs rows ->
  zip3 (map derived_name rows) (map (item 2) rows) imgs = map triple_of imgs.
Proof.
  induction 1 as [| img row imgs rows Hrow _ IH]; [reflexivity |].
  unfold zip3 in *. cbn [map combine]. rewrite IH.
  unfold triple_of at 2, row_of. rewrite Hrow. reflexivity.
Qed.

Lemma retained_triples (imgs : list BioImage)
  (c_subset : option (list string)) (kept : list triple) :
  retained imgs c_subset = Ok kept ->
  Permutation (filter (selected c_subset) (map triple_of imgs)) kept
  /\ StronglySorted (fun x y => (key_of x <= key_of y)%N) kept.
Proof.
  intros H.
  destruct (retained_Ok _ _ _ H)
    as (metadata & all & Hm & -> & _ & Hperm & Hsorted & _).
  rewrite (zip3_triple_of _ _ Hm) in Hperm. auto.
Qed.

(** X6. The channels of a call that returns. The output has one channel,
    with its label and its plane, for each file that line 85 selects: the
    retained triples are a rearrangement of the triples of the selected
    files, none dropped and none twice, and there is at least one. An
    empty allow-list selects every file, like no allow-list: the two calls
    are the same, and the output then has as many channels as there are
    files. *)
Theorem X6_one_channel_per_selected_file (imgs : list BioImage)
  (c_subset : option (list string)) (transformations : bool) :
  macsima imgs (Some []) transformations = macsima imgs None transformations
  /\ forall out,
      macsima imgs c_subset transformations = Ok out ->
      exists kept,
        retained imgs c_subset = Ok kept
        /\ c_coords out = map name_of kept
        /\ array out = map plane_of kept
        /\ Permutation (filter (selected c_subset) (map triple_of imgs)) kept
        /\ 1 <= List.length (c_coords out)
        /\ List.length (c_coords out) = List.length (array out)
        /\ (c_subset = None \/ c_subset = Some [] ->
            List.length (array out) = List.length imgs).
Proof.
  split; [reflexivity |].
  intros out H.
  destruct (macsima_Ok _ _ _ _ H)
    as (img0 & rest & d & ds & metadata & first & others & p & name
        & _ & _ & _ & _ & Hkept & _ & _ & _ & _ & Hc & Ha & _).
  destruct (retained_triples _ _ _ Hkept) as [Hperm _].
  exists (first :: others).
  split; [exact Hkept |]. split; [exact Hc |]. split; [exact Ha |].
  split; [exact Hperm |].
  split; [rewrite Hc; simpl; lia |].
  split; [rewrite Hc, Ha, !length_map; reflexivity |].
  intros Hnone. rewrite Ha, length_map.
  rewrite <- (Permutation_length Hperm).
  assert (Hsel : forall x, selected c_subset x = true)
    by (destruct Hnone as [-> | ->]; reflexivity).
  rewrite (filter_ext _ (fun _ => true) Hsel), filter_true, length_map.
  reflexivity.
Qed.

Lemma X6_one_channel_per_selected_file_witness :
  exists out kept,
    macsima [Inputs.half_micron; Inputs.one_micron] (Some ["CD3"]) false
    = Ok out
    /\ retained [Inputs.half_micron; Inputs.one_micron] (Some ["CD3"])
       = Ok kept
    /\ c_coords out = map name_of kept
    /\ c_coords out = ["2_CD3"]
    /\ Permutation
         (filter (selected (Some ["CD3"]))
                 (map triple_of [Inputs.half_micron; Inputs.one_micron]))
         kept.
Proof.
  eexists.
  destruct (X6_one_channel_per_selected_file
              [Inputs.half_micron; Inputs.one_micron] (Some ["CD3"]) false)
    as [_ H].
  destruct (H _ eq_refl) as (kept & Hkept & Hc & _ & Hperm & _).
  exists kept. split; [reflexivity |]. split; [exact Hkept |].
  split; [exact Hc |]. split; [reflexivity | exact Hperm].
Defined.

(** X7. The switch [transformations] decides the transformation and
    nothing else: the call with the switch on and the call with it off
    raise the same exception, or return outputs with the same name, planes,
    axes, labels and coordinate system, the one with a scale of two equal
    factors on x and y, the other with the identity. *)
Theorem X7_transformations_switch (imgs : list BioImage)
  (c_subset : option (list string)) :
  match macsima imgs c_subset true, macsima imgs c_subset false with
  | Ok scaled, Ok plain =>
      image_name scaled = image_name plain
      /\ array scaled = array plain
      /\ dims scaled = dims plain
      /\ c_coords scaled = c_coords plain
      /\ to_coordinate_system scaled = to_coordinate_system plain
      /\ transformation plain = Identity
      /\ exists p, transformation scaled = Scale [p; p] ["x"; "y"]
  | Raise e, Raise e' => e = e'
  | _, _ => False
  end.
Proof.
  rewrite !macsima_stages.
  destruct imgs as [| img0 rest]; [reflexivity |].
  destruct (experiments img0) as [| description descriptions];
    [reflexivity |].
  destruct (comprehension _get_metadata (img0 :: rest)) as [metadata | e];
    [| reflexivity].
  cbn [bind].
  destruct (roi_naming description (map (item 3) metadata))
    as [naming | e]; [| reflexivity].
  cbn [bind].
  destruct (retained (img0 :: rest) c_subset) as [[| first others] | e];
    try reflexivity.
  cbn [bind].
  destruct (pixel_size (img_of first)) as [p | e]; [| reflexivity].
  cbn [bind].
  destruct (check_pixel_sizes p _) as [u | e]; [| reflexivity].
  cbn [bind].
  destruct (dims_order (img_of first) =? "TCZYX"); [| reflexivity].
  destruct (snd naming); [| reflexivity].
  cbn. repeat split. exists p. reflexivity.
Qed.

(** X8. The scale. When the switch is on and the call returns, the two
    factors of the scale are the normalised pixel size of the first
    retained image, and the normalised pixel size of every retained image
    is equal to them. *)
Theorem X8_scale_is_the_common_pixel_size (imgs : list BioImage)
  (c_subset : option (list string)) (out : SpatialData) :
  macsima imgs c_subset true = Ok out ->
  exists first others p,
    retained imgs c_subset = Ok (first :: others)
    /\ pixel_size (img_of first) = Ok p
    /\ transformation out = Scale [p; p] ["x"; "y"]
    /\ Forall (fun x => exists q,
                   pixel_size (img_of x) = Ok q /\ (p =? q)%float = true)
              (first :: others).
Proof.
  intros H.
  destruct (macsima_Ok _ _ _ _ H)
    as (img0 & rest & d & ds & metadata & first & others & p & name
        & _ & _ & _ & _ & Hkept & Hp & Hcheck & _ & _ & _ & _ & _ & Ht).
  exists first, others, p.
  split; [exact Hkept |]. split; [exact Hp |]. split; [exact Ht |].
  apply check_pixel_sizes_Ok in Hcheck.
  rewrite Forall_forall in *. intros x Hx.
  apply Hcheck. apply in_map. exact Hx.
Qed.

Lemma X8_scale_is_the_common_pixel_size_witness :
  exists out first others p,
    macsima [Inputs.half_micron; Inputs.one_micron] (Some ["DAPI"]) true
    = Ok out
    /\ retained [Inputs.half_micron; Inputs.one_micron] (Some ["DAPI"])
       = Ok (first :: others)
    /\ transformation out = Scale [p; p] ["x"; "y"]
    /\ transformation out = Scale [0.5%float; 0.5%float] ["x"; "y"].
Proof.
  eexists.
  destruct (X8_scale_is_the_common_pixel_size
              [Inputs.half_micron; Inputs.one_micron] (Some ["DAPI"]) _
              eq_refl) as (first & others & p & Hkept & _ & Ht & _).
  exists first, others, p.
  split; [reflexivity |]. split; [exact Hkept |]. split; [exact Ht |].
  reflexivity.
Defined.

(** ** Further properties: sanitising *)

Lemma is_word_char_sanitized (c : ascii) :
  is_word_char (if is_word_char c then c else "_"%char) = true.
Proof.
  destruct (is_word_char c) eqn:E; [exact E | reflexivity].
Qed.

Lemma _clean_string_app (s t : string) :
  _clean_string (s ++ t) = (_clean_string s ++ _clean_string t)%string.
Proof.
  induction s as [| c s IH]; simpl; [reflexivity |].
  rewrite IH. reflexivity.
Qed.

Lemma _clean_string_word (s : string) : word_string (_clean_string s) = true.
Proof.
  unfold word_string. induction s as [| c s IH]; simpl; [reflexivity |].
  rewrite is_word_char_sanitized. exact IH.
Qed.

Lemma _clean_string_fixed (s : string) :
  _clean_string s = s <-> word_string s = true.
Proof.
  unfold word_string. induction s as [| c s IH]; simpl.
  - split; reflexivity.
  - rewrite andb_true_iff, <- IH. split.
    + intros H. injection H as Hc Hs. split; [| exact Hs].
      destruct (is_word_char c) eqn:E; [reflexivity |].
      subst c. discriminate E.
    + intros [-> ->]. reflexivity.
Qed.

(** X9. Sanitising, as a function on strings: it goes through
    concatenation, its result has characters of [A-Za-z0-9_] only, it
    leaves exactly the strings of such characters unchanged, and so
    sanitising twice is sanitising once. *)
Theorem X9_clean_string_algebra (s t : string) :
  _clean_string (s ++ t) = (_clean_string s ++ _clean_string t)%string
  /\ word_string (_clean_string s) = true
  /\ (_clean_string s = s <-> word_string s = true)
  /\ _clean_string (_clean_string s) = _clean_string s.
Proof.
  split; [apply _clean_string_app |].
  split; [apply _clean_string_word |].
  split; [apply _clean_string_fixed |].
  apply _clean_string_fixed. apply _clean_string_word.
Qed.

(** X10. The name of the image of a call that returns has characters of
    [A-Za-z0-9_] only and is the sanitised description, followed, when the
    first file has a ROI id, by an underscore and the sanitised ROI id.
    When the first experiment has no description the call returns only if
    the first file has a ROI id, and the name then starts with None and an
    underscore. *)
Theorem X10_image_name_is_valid (img0 : BioImage) (rest : list BioImage)
  (c_subset : option (list string)) (transformations : bool)
  (out : SpatialData) :
  macsima (img0 :: rest) c_subset transformations = Ok out ->
  word_string (image_name out) = true
  /\ exists description descriptions row0,
      experiments img0 = description :: descriptions
      /\ _get_metadata img0 = Ok row0
      /\ (forall roi_id,
             item 3 row0 = Some roi_id ->
             image_name out
             = (_clean_string (format description) ++ "_"
                ++ _clean_string roi_id)%string)
      /\ (item 3 row0 = None ->
          exists text,
            description = Some text /\ image_name out = _clean_string text)
      /\ (description = None -> exists roi_id, item 3 row0 = Some roi_id).
Proof.
  intros H.
  destruct (macsima_Ok _ _ _ _ H)
    as (img0' & rest' & d & ds & metadata & first & others & p & name
        & Himgs & Hexp & Hm & Hn & _ & _ & _ & _ & Hname & _).
  injection Himgs as <- <-.
  split; [rewrite Hname; apply _clean_string_word |].
  pose proof (comprehension_Ok _ _ _ Hm) as Hrows.
  inversion Hrows as [| ? row0 ? rows Hrow0 _]; subst.
  exists d, ds, row0.
  split; [exact Hexp |]. split; [exact Hrow0 |].
  apply roi_naming_Ok in Hn. cbn [map nth] in Hn.
  change (nth 3 row0 (Value None)) with (item 3 row0) in Hn.
  destruct (_get_metadata_item_3 _ _ Hrow0) as [roi [Hroi _]].
  rewrite Hroi in *. destruct roi as [roi_id |].
  - destruct Hn as (_ & Hnm & _). injection Hnm as ->.
    split; [| split].
    + intros r Hr. assert (r = roi_id) by congruence. subst r.
      rewrite Hname, !_clean_string_app. reflexivity.
    + discriminate.
    + intros _. exists roi_id. reflexivity.
  - destruct Hn as [_ <-].
    split; [discriminate |]. split; [| discriminate].
    intros _. exists name. auto.
Qed.

Lemma X10_image_name_is_valid_witness :
  exists out,
    macsima [Cases.undescribed (Some "R-1")] None false = Ok out
    /\ word_string (image_name out) = true
    /\ image_name out = "None_R_1"
    /\ macsima [Cases.undescribed None] None false = Raise NameIsNone.
Proof.
  eexists. split; [reflexivity |]. split; [| split; reflexivity].
  apply (X10_image_name_is_valid (Cases.undescribed (Some "R-1")) [] None
           false _ eq_refl).
Defined.

(** ** Further properties: the cycle number *)

Lemma leading_digits_split (s : string) :
  exists rest,
    s = (leading_digits s ++ rest)%string
    /\ all_digits (leading_digits s) = true
    /\ starts_with_digit rest = false.
Proof.
  unfold all_digits. induction s as [| c s (rest & Hs & Hd & Hr)]; simpl.
  - exists "". auto.
  - destruct (is_digit c) eqn:E.
    + exists rest. simpl. rewrite E, Hd, <- Hs. auto.
    + exists (String c s). simpl. rewrite E. auto.
Qed.

Lemma leading_digits_app (d rest : string) :
  all_digits d = true -> starts_with_digit rest = false ->
  leading_digits (d ++ rest) = d.
Proof.
  unfold all_digits. induction d as [| c d IH]; simpl; intros Hd Hr.
  - destruct rest as [| c rest]; [reflexivity |].
    simpl in *. rewrite Hr. reflexivity.
  - apply andb_true_iff in Hd. destruct Hd as [Hc Hd].
    rewrite Hc, (IH Hd Hr). reflexivity.
Qed.

Lemma leading_digits_empty (s : string) :
  leading_digits s = "" <-> starts_with_digit s = false.
Proof.
  destruct s as [| c s]; simpl; [split; reflexivity |].
  destruct (is_digit c); split; congruence.
Qed.

(** X11. The match of the pattern of line 77. There is none exactly when
    the string does not start with a digit; otherwise the match is the
    longest run of digits the string starts with: a non-empty string of
    digits followed in the string by something that does not start with a
    digit. *)
Theorem X11_number_pattern_match (s : string) :
  (number_pattern_match s = None <-> starts_with_digit s = false)
  /\ forall d,
      number_pattern_match s = Some d
      <-> d <> ""
          /\ all_digits d = true
          /\ exists rest,
              s = (d ++ rest)%string /\ starts_with_digit rest = false.
Proof.
  unfold number_pattern_match. split.
  - rewrite <- leading_digits_empty.
    destruct (leading_digits s); split; congruence.
  - intros d. split.
    + destruct (leading_digits_split s) as (rest & Hs & Hd & Hr).
      destruct (leading_digits s) as [| c d'] eqn:E; [discriminate |].
      intros H. injection H as <-.
      split; [discriminate |]. split; [exact Hd |]. exists rest. auto.
    + intros (Hne & Hd & rest & -> & Hr).
      rewrite (leading_digits_app _ _ Hd Hr).
      destruct d; [contradiction | reflexivity].
Qed.

Lemma truthy_parts_cons (s : string) (parts : metadata_row) :
  s <> "" -> truthy_parts (Some s :: parts) = s :: truthy_parts parts.
Proof.
  intros H. apply String.eqb_neq in H. simpl. rewrite H. reflexivity.
Qed.

(** X12. The sort key is the cycle number. For a row that [_get_metadata]
    returns and whose cycle is a non-empty string of digits, the derived
    name is the cycle, an underscore and the other parts, and the integer
    it starts with, the key of line 79, is the integer the cycle denotes,
    whatever digits the other parts start with. *)
Theorem X12_sort_key_is_the_cycle (img : BioImage)
  (row : metadata_row) (cycle : string) :
  _get_metadata img = Ok row -> item 0 row = Some cycle ->
  cycle <> "" -> all_digits cycle = true ->
  (exists others,
      derived_name row = (cycle ++ "_" ++ others)%string)
  /\ number_pattern_match (derived_name row) = Some cycle
  /\ leading_int (derived_name row) = Some (int cycle).
Proof.
  intros H Hcycle Hne Hd.
  destruct (_get_metadata_Ok _ _ H)
    as (cycle' & scantype & channel & roi & reagent & -> & _ & _ & Hc & _).
  injection Hcycle as ->.
  apply get_channel_name_Ok in Hc. destruct Hc as [_ Hc].
  assert (Hname : exists others,
             derived_name [Some cycle; scantype; Some channel; roi; reagent]
             = (cycle ++ "_" ++ others)%string).
  { unfold derived_name, join. rewrite (truthy_parts_cons _ _ Hne).
    assert (Hrest : exists p ps,
               truthy_parts [scantype; Some channel; roi; reagent]
               = p :: ps).
    { destruct scantype as [s |].
      - destruct (string_dec s "") as [-> | Hs].
        + change (truthy_parts [Some ""; Some channel; roi; reagent])
            with (truthy_parts [Some channel; roi; reagent]).
          rewrite (truthy_parts_cons _ _ Hc). eauto.
        + rewrite (truthy_parts_cons _ _ Hs). eauto.
      - change (truthy_parts [None; Some channel; roi; reagent])
          with (truthy_parts [Some channel; roi; reagent]).
        rewrite (truthy_parts_cons _ _ Hc). eauto. }
    destruct Hrest as (p & ps & ->).
    exists (concat "_" (p :: ps)). reflexivity. }
  destruct Hname as [others Hname].
  assert (Hmatch : number_pattern_match
                     (derived_name
                        [Some cycle; scantype; Some channel; roi; reagent])
                   = Some cycle).
  { rewrite Hname. unfold number_pattern_match.
    rewrite (leading_digits_app cycle ("_" ++ others) Hd eq_refl).
    destruct cycle; [contradiction | reflexivity]. }
  split; [exists others; exact Hname |]. split; [exact Hmatch |].
  unfold leading_int. rewrite Hmatch. reflexivity.
Qed.

Lemma X12_sort_key_is_the_cycle_witness :
  _get_metadata (Examples.acquisition "Exp" "012" None "4plex"
                   (Examples.micrometers 1) "TCZYX" "a")
  = Ok [Some "012"; None; Some "4plex"; None; None]
  /\ leading_int (derived_name [Some "012"; None; Some "4plex"; None; None])
     = Some (int "012")
  /\ int "012" = 12%N.
Proof.
  split; [reflexivity |]. split; [| reflexivity].
  apply (X12_sort_key_is_the_cycle
           (Examples.acquisition "Exp" "012" None "4plex"
              (Examples.micrometers 1) "TCZYX" "a")
           [Some "012"; None; Some "4plex"; None; None] "012");
    [reflexivity | reflexivity | discriminate | reflexivity].
Defined.

(** ** Further properties: the ROI of the invocation *)

Lemma eq_value_Some (x : entry) (r : string) :
  eq_value x (Some r) = true <-> x = Some r.
Proof. apply eq_value_eq. Qed.

Lemma comprehension_head {A B : Type} (f : A -> result B) (a : A)
  (l : list A) (bs : list B) :
  comprehension f (a :: l) = Ok bs ->
  exists b bs', bs = b :: bs' /\ f a = Ok b /\ comprehension f l = Ok bs'.
Proof.
  simpl. intros H. bind_inv H as b Hb. bind_inv H as bs' Hbs.
  injection H as <-. exists b, bs'. auto.
Qed.

(** X13. The ROI of a call that returns. When the first file has a ROI
    id, every file of the invocation, retained or not, has this same ROI
    id, and the coordinate system is "global", an underscore and this id;
    when the first file has none, the coordinate system is "global". *)
Theorem X13_roi_of_a_returning_call (img0 : BioImage) (rest : list BioImage)
  (c_subset : option (list string)) (transformations : bool)
  (out : SpatialData) :
  macsima (img0 :: rest) c_subset transformations = Ok out ->
  exists row0,
    _get_metadata img0 = Ok row0
    /\ match item 3 row0 with
       | Value (Some roi_id) =>
           to_coordinate_system out = ("global_" ++ roi_id)%string
           /\ forall img, In img (img0 :: rest) ->
                exists row,
                  _get_metadata img = Ok row /\ item 3 row = Some roi_id
       | Value None => to_coordinate_system out = "global"
       | EmptyList => False
       end.
Proof.
  intros H.
  destruct (macsima_Ok _ _ _ _ H)
    as (img0' & rest' & d & ds & metadata & first & others & p & name
        & Himgs & _ & Hm & Hn & _).
  injection Himgs as <- <-.
  destruct (comprehension_head _ _ _ _ Hm) as (row0 & rows & -> & Hrow0 & _).
  exists row0. split; [exact Hrow0 |].
  apply roi_naming_Ok in Hn. cbn [map nth] in Hn.
  change (nth 3 row0 (Value None)) with (item 3 row0) in Hn.
  destruct (_get_metadata_item_3 _ _ Hrow0) as [roi [Hroi0 _]].
  rewrite Hroi0 in Hn |- *. destruct roi as [roi_id |].
  - destruct Hn as (Hsys & _ & Hall). split; [exact Hsys |].
    intros img Hin.
    destruct (comprehension_In _ _ _ _ Hm Hin) as [row [Hrow Hrin]].
    exists row. split; [exact Hrow |].
    rewrite Forall_forall in Hall.
    apply (Hall (item 3 row)). apply (in_map (item 3)) in Hrin.
    cbn [map] in Hrin. rewrite Hroi0 in Hrin. exact Hrin.
  - destruct Hn as [Hsys _]. exact Hsys.
Qed.

Lemma X13_roi_of_a_returning_call_witness :
  exists out row0,
    macsima [Inputs.with_roi; Inputs.with_roi] None false = Ok out
    /\ _get_metadata Inputs.with_roi = Ok row0
    /\ item 3 row0 = Some "R1"
    /\ to_coordinate_system out = "global_R1".
Proof.
  eexists.
  destruct (X13_roi_of_a_returning_call Inputs.with_roi [Inputs.with_roi]
              None false _ eq_refl) as (row0 & Hrow0 & Hroi).
  exists row0. split; [reflexivity |]. split; [exact Hrow0 |].
  assert (E : Ok row0 = Ok [Some "1"; None; Some "DAPI"; Some "R1"; None])
    by (rewrite <- Hrow0; reflexivity).
  injection E as ->. split; reflexivity.
Defined.

(** X14. The ROI check comes before the sort and the subsetting. When
    every file can be read, the first file has an experiment and a ROI id,
    and some file has another ROI id or none, the call raises the
    assertion of line 69, whatever the allow-list is, also when it
    excludes that file. *)
Theorem X14_roi_mismatch_is_raised_before_subsetting (img0 : BioImage)
  (rest : list BioImage) (c_subset : option (list string))
  (transformations : bool) (metadata : list metadata_row)
  (row0 row : metadata_row) (roi_id : string) (img : BioImage) :
  experiments img0 <> [] ->
  comprehension _get_metadata (img0 :: rest) = Ok metadata ->
  _get_metadata img0 = Ok row0 -> item 3 row0 = Some roi_id ->
  In img rest -> _get_metadata img = Ok row -> item 3 row <> Some roi_id ->
  macsima (img0 :: rest) c_subset transformations = Raise RoiNotEqual.
Proof.
  intros Hexp Hm Hrow0 Hroi Hin Hrow Hne.
  rewrite macsima_stages.
  destruct (experiments img0) as [| d ds]; [contradiction |].
  rewrite Hm. cbn [bind].
  destruct (comprehension_head _ _ _ _ Hm) as (row0' & rows & -> & Hrow0' & _).
  rewrite Hrow0 in Hrow0'. injection Hrow0' as <-.
  unfold roi_naming. cbn [map nth].
  change (nth 3 row0 None) with (item 3 row0). rewrite Hroi.
  destruct (forallb _ _) eqn:Hall; [exfalso | reflexivity].
  rewrite forallb_forall in Hall.
  destruct (comprehension_In _ _ _ _ Hm (or_intror Hin)) as [row' [Hrow' Hrin]].
  rewrite Hrow in Hrow'. injection Hrow' as <-.
  apply Hne. apply eq_value_Some. apply Hall.
  apply (in_map (item 3)) in Hrin.
  cbn [map] in Hrin. rewrite Hroi in Hrin. exact Hrin.
Qed.

Lemma X14_roi_mismatch_is_raised_before_subsetting_witness :
  macsima [Inputs.with_roi; Inputs.one_micron] (Some ["DAPI"]) false
  = Raise RoiNotEqual.
Proof.
  apply (X14_roi_mismatch_is_raised_before_subsetting
           Inputs.with_roi [Inputs.one_micron] (Some ["DAPI"]) false
           [[Some "1"; None; Some "DAPI"; Some "R1"; None];
            [Some "2"; None; Some "CD3"; None; None]]
           [Some "1"; None; Some "DAPI"; Some "R1"; None]
           [Some "2"; None; Some "CD3"; None; None] "R1" Inputs.one_micron);
    try reflexivity; try discriminate.
  left. reflexivity.
Defined.

(** ** Further properties: the order of discovery *)

Lemma Permutation_filter_same {A : Type} (f : A -> bool) (l l' : list A) :
  Permutation l l' -> Permutation (filter f l) (filter f l').
Proof.
  induction 1 as [| x l l' _ IH | x y l | l l' l'' _ IH1 _ IH2]; simpl.
  - constructor.
  - destruct (f x); [apply perm_skip |]; exact IH.
  - destruct (f x), (f y); try apply perm_swap; apply Permutation_refl.
  - eapply perm_trans; eassumption.
Qed.

(** Two arrangements of the same elements, both in ascending order of keys
    that are all different, are the same list. *)
Lemma sorted_arrangement_unique {A : Type} (f : A -> N) (l l' : list A) :
  StronglySorted (fun x y => (f x <= f y)%N) l ->
  StronglySorted (fun x y => (f x <= f y)%N) l' ->
  Permutation l l' -> NoDup (map f l) -> l = l'.
Proof.
  intros Hl. revert l'.
  induction Hl as [| x l Hl IH Hx]; intros l' Hl' Hperm Hnodup.
  - apply Permutation_nil in Hperm. congruence.
  - destruct Hl' as [| y l' Hl' Hy].
    + apply Permutation_sym, Permutation_nil in Hperm. discriminate Hperm.
    + inversion Hnodup as [| ? ? Hnotin Hnodup']; subst.
      rewrite Forall_forall in Hx, Hy.
      assert (Hxy : x = y).
      { assert (Hxin : In x (y :: l'))
          by (apply (Permutation_in _ Hperm); left; reflexivity).
        assert (Hyin : In y (x :: l))
          by (apply (Permutation_in _ (Permutation_sym Hperm));
              left; reflexivity).
        destruct Hxin as [<- | Hxin]; [reflexivity |].
        destruct Hyin as [<- | Hyin]; [reflexivity |].
        exfalso. apply Hnotin.
        replace (f x) with (f y)
          by (specialize (Hx y Hyin); specialize (Hy x Hxin); lia).
        apply in_map. exact Hyin. }
      subst y. f_equal.
      apply IH; [exact Hl' | | exact Hnodup'].
      apply (Permutation_cons_inv Hperm).
Qed.

(** X15. The order in which the files are discovered does not matter for
    the stack when the cycle numbers are all different: two calls on the
    same files in two orders, with the same allow-list, that both return,
    and whose labels start with pairwise different integers, return the
    same labels and the same planes in the same order. *)
Theorem X15_discovery_order_is_irrelevant (imgs imgs' : list BioImage)
  (c_subset : option (list string)) (transformations transformations' : bool)
  (out out' : SpatialData) :
  Permutation imgs imgs' ->
  macsima imgs c_subset transformations = Ok out ->
  macsima imgs' c_subset transformations' = Ok out' ->
  NoDup (map leading_int (c_coords out)) ->
  c_coords out' = c_coords out /\ array out' = array out.
Proof.
  intros Hperm H H' Hnodup.
  destruct (macsima_Ok _ _ _ _ H)
    as (img0 & rest & d & ds & metadata & first & others & p & name
        & _ & _ & _ & _ & Hkept & _ & _ & _ & _ & Hc & Ha & _).
  destruct (macsima_Ok _ _ _ _ H')
    as (img0' & rest' & d' & ds' & metadata' & first' & others' & p' & name'
        & _ & _ & _ & _ & Hkept' & _ & _ & _ & _ & Hc' & Ha' & _).
  destruct (retained_triples _ _ _ Hkept) as [Hp Hs].
  destruct (retained_triples _ _ _ Hkept') as [Hp' Hs'].
  assert (E : first :: others = first' :: others').
  { apply (sorted_arrangement_unique key_of); try assumption.
    - eapply perm_trans; [apply Permutation_sym; exact Hp |].
      eapply perm_trans; [| exact Hp'].
      apply Permutation_filter_same. apply Permutation_map. exact Hperm.
    - rewrite Hc, (retained_leading_ints _ _ _ Hkept) in Hnodup.
      apply NoDup_map_inv in Hnodup. exact Hnodup. }
  rewrite Hc, Hc', Ha, Ha', E. split; reflexivity.
Qed.

Lemma X15_discovery_order_is_irrelevant_witness :
  exists out out',
    macsima Inputs.cycles_312 None false = Ok out
    /\ macsima (rev Inputs.cycles_312) None true = Ok out'
    /\ c_coords out' = c_coords out
    /\ array out' = array out.
Proof.
  eexists. eexists.
  split; [reflexivity |]. split; [reflexivity |].
  apply (X15_discovery_order_is_irrelevant Inputs.cycles_312
           (rev Inputs.cycles_312) None false true _ _
           (Permutation_rev _) eq_refl eq_refl).
  repeat constructor; simpl; intuition discriminate.
Defined.

(** ** Further properties: what an exception tells *)

Lemma filter_nil {A : Type} (f : A -> bool) (l : list A) :
  filter f l = [] -> Forall (fun x => f x = false) l.
Proof.
  induction l as [| a l IH]; simpl; [constructor |].
  destruct (f a) eqn:E; [discriminate |].
  intros H. constructor; auto.
Qed.

Lemma roi_naming_Raise (description : option string)
  (roi : list entry) (e : exception) :
  roi_naming description roi = Raise e ->
  e = RoiNotEqual
  /\ exists x,
      nth 0 roi (Value None) <> Value None
      /\ In x roi /\ x <> nth 0 roi (Value None).
Proof.
  assert (Hcheck : forall first,
             first <> Value None ->
             (if forallb (fun x => eq_value x first) roi
              then Ok (("global_" ++ format first)%string,
                       Some (format description ++ "_" ++ format first)%string)
              else Raise RoiNotEqual) = Raise e ->
             e = RoiNotEqual
             /\ exists x, first <> Value None /\ In x roi /\ x <> first).
  { intros first Hfirst. destruct (forallb _ roi) eqn:E; [discriminate |].
    intros H. injection H as <-. split; [reflexivity |].
    apply forallb_false in E. destruct E as [x [Hin Hx]].
    exists x. split; [exact Hfirst |]. split; [exact Hin |].
    intros ->. rewrite (proj2 (eq_value_eq first first) eq_refl) in Hx.
    discriminate Hx. }
  unfold roi_naming. destruct (nth 0 roi (Value None)) as [[roi_id |] |].
  - apply Hcheck. discriminate.
  - discriminate.
  - apply Hcheck. discriminate.
Qed.

(** What makes [retained] raise once the metadata are read. *)
Lemma retained_Raise (imgs : list BioImage)
  (c_subset : option (list string))
  (metadata : list metadata_row) (e : exception) :
  comprehension _get_metadata imgs = Ok metadata ->
  retained imgs c_subset = Raise e ->
  (e = NoLeadingDigits
   /\ exists img, In img imgs /\ leading_int (name_of (triple_of img)) = None)
  \/ (e = NotEnoughValuesToUnpack
      /\ exists c cs,
          c_subset = Some (c :: cs)
          /\ Forall (fun img =>
                       is_in (c_coord_of (triple_of img)) (c :: cs) = false)
                    imgs).
Proof.
  intros Hm H. unfold retained in H. rewrite Hm in H. cbn [bind] in H.
  rewrite (zip3_triple_of _ _ (comprehension_Ok _ _ _ Hm)) in H.
  bind_raise H as combined Hs.
  - left. unfold sorted in H. bind_raise H as dec Hdec; [| discriminate H].
    apply comprehension_Raise in H. destruct H as [x [Hin H]].
    bind_raise H as k Hk; [| discriminate H].
    unfold cycle_number in H.
    destruct (number_pattern_match (name_of x)) eqn:E; [discriminate H |].
    injection H as <-. split; [reflexivity |].
    apply in_map_iff in Hin. destruct Hin as [img [<- Hin]].
    exists img. split; [exact Hin |].
    unfold leading_int. rewrite E. reflexivity.
  - right. apply subset_Raise in H.
    destruct H as [-> (c & cs & -> & Hnil)].
    split; [reflexivity |]. exists c, cs. split; [reflexivity |].
    apply filter_nil in Hnil.
    destruct (sorted_Ok _ _ _ Hs) as [_ [Hperm _]].
    apply (Permutation_Forall (Permutation_sym Hperm)) in Hnil.
    rewrite Forall_map in Hnil. exact Hnil.
Qed.

(** The stage at which a call raises. *)
Lemma macsima_Raise (imgs : list BioImage) (c_subset : option (list string))
  (transformations : bool) (e : exception) :
  macsima imgs c_subset transformations = Raise e ->
  (imgs = [] /\ e = NoFilesFound)
  \/ (exists img0 rest,
         imgs = img0 :: rest /\ experiments img0 = [] /\ e = NoExperiment)
  \/ comprehension _get_metadata imgs = Raise e
  \/ exists img0 rest d ds metadata,
      imgs = img0 :: rest /\ experiments img0 = d :: ds
      /\ comprehension _get_metadata imgs = Ok metadata
      /\ (roi_naming d (map (item 3) metadata) = Raise e
          \/ exists naming,
              roi_naming d (map (item 3) metadata) = Ok naming
              /\ (retained imgs c_subset = Raise e
                  \/ exists first others,
                      retained imgs c_subset = Ok (first :: others)
                      /\ (pixel_size (img_of first) = Raise e
                          \/ exists p,
                              pixel_size (img_of first) = Ok p
                              /\ (check_pixel_sizes p
                                    (map img_of (first :: others)) = Raise e
                                  \/ (dims_order (img_of first) <> "TCZYX"
                                      /\ e = DimsOrderNotTCZYX)
                                  \/ (snd naming = None
                                      /\ e = NameIsNone))))).
Proof.
  rewrite macsima_stages.
  destruct imgs as [| img0 rest];
    [intros H; injection H as <-; auto |].
  destruct (experiments img0) as [| d ds] eqn:Hexp.
  { intros H. injection H as <-. right. left. exists img0, rest. auto. }
  destruct (comprehension _get_metadata (img0 :: rest)) as [metadata | e0]
    eqn:Hm; cbn [bind].
  2: { intros H. injection H as <-. auto. }
  intros H. right. right. right.
  exists img0, rest, d, ds, metadata.
  split; [reflexivity |]. split; [exact Hexp |]. split; [reflexivity |].
  bind_raise H as naming Hn; [left; exact H | right].
  exists naming. split; [exact Hn |].
  bind_raise H as kept Hk; [left; exact H | right].
  destruct kept as [| first others].
  { exfalso. apply (retained_nonempty _ _ _ Hk). }
  exists first, others. split; [exact Hk |].
  bind_raise H as p Hp; [left; exact H | right].
  exists p. split; [exact Hp |].
  bind_raise H as u Hu; [left; exact H | right].
  destruct (dims_order (img_of first) =? "TCZYX") eqn:Hdims.
  - right. destruct (snd naming); [discriminate H |].
    injection H as <-. auto.
  - left. apply String.eqb_neq in Hdims. injection H as <-. auto.
Qed.

Lemma comprehension_metadata_Raise (imgs : list BioImage) (e : exception) :
  comprehension _get_metadata imgs = Raise e ->
  from_metadata e = true
  /\ exists img, In img imgs /\ _get_metadata img = Raise e.
Proof.
  intros H. apply comprehension_Raise in H. destruct H as [img [Hin H]].
  split; [apply (_get_metadata_from _ _ H) | exists img; auto].
Qed.

Lemma pixel_size_from (img : BioImage) (e : exception) :
  pixel_size img = Raise e -> from_pixel_size e = true.
Proof.
  intros H. apply pixel_size_Raise in H.
  destruct H as [-> | [-> | [l ->]]]; reflexivity.
Qed.

Lemma check_pixel_sizes_Raise_cause (p : float) (imgs : list BioImage)
  (e : exception) :
  check_pixel_sizes p imgs = Raise e ->
  from_pixel_size e = true
  \/ (e = PhysicalSizeNotEqual
      /\ exists img q,
          In img imgs /\ pixel_size img = Ok q /\ (p =? q)%float = false).
Proof.
  induction imgs as [| img imgs IH]; simpl; intros H; [discriminate H |].
  bind_raise H as q Hq; [left; apply (pixel_size_from _ _ H) |].
  destruct (p =? q)%float eqn:E.
  - destruct (IH H) as [Hf | [-> (img' & q' & Hin & Hq' & Hpq)]];
      [left; exact Hf | right].
    split; [reflexivity |]. exists img', q'. auto.
  - injection H as <-. right. split; [reflexivity |].
    exists img, q. auto.
Qed.

Ltac stage_cases H :=
  let img0 := fresh "img0" in
  let rest := fresh "rest" in
  let d := fresh "d" in
  let ds := fresh "ds" in
  let metadata := fresh "metadata" in
  let naming := fresh "naming" in
  let first := fresh "first" in
  let others := fresh "others" in
  let p := fresh "p" in
  let Himgs := fresh "Himgs" in
  let Hd := fresh "Hd" in
  let Hm := fresh "Hm" in
  let Hn := fresh "Hn" in
  let Hk := fresh "Hk" in
  let Hp := fresh "Hp" in
  apply macsima_Raise in H;
  destruct H
    as [[Himgs H]
       | [(img0 & rest & Himgs & Hd & H)
         | [H
           | (img0 & rest & d & ds & metadata & Himgs & Hd & Hm
              & [H
                | (naming & Hn
                   & [H
                     | (first & others & Hk
                        & [H
                          | (p & Hp
                             & [H | [[Hdims H] | [Hname H]]])])])])]]].

Ltac wrong_stage H :=
  solve
    [ discriminate H
    | apply comprehension_metadata_Raise in H; destruct H as [H _];
      discriminate H
    | apply roi_naming_Raise in H; destruct H as [H _]; discriminate H
    | apply pixel_size_from in H; discriminate H
    | apply check_pixel_sizes_Raise_cause in H;
      destruct H as [H | [H _]]; discriminate H ].

Lemma metadata_of (imgs : list BioImage)
  (metadata : list metadata_row) (img : BioImage) :
  comprehension _get_metadata imgs = Ok metadata -> In img imgs ->
  _get_metadata img = Ok (row_of img).
Proof.
  intros Hm Hin.
  destruct (comprehension_In _ _ _ _ Hm Hin) as [row [Hrow _]].
  unfold row_of. rewrite Hrow. reflexivity.
Qed.

(** X16. What an exception of the call tells about the files.
    (1) The error of line 60 is raised exactly when there is no file.
    (2) An exception of the metadata extraction is the one that reading
    some file raises. (3) The assertion of line 69 means that the first
    file has a ROI id and some file has another one or none. (4) The
    failure of line 79 means that the derived name of some file does not
    start with a digit. (5) The failure of the unpacking of line 83 means
    that there is a non-empty allow-list and the channel of no file is in
    it. (6) The assertion of line 95 means that the normalised pixel size
    of some retained image differs from that of the first retained image.
    (7) The assertion of line 96 means that the first retained image has
    another dimension order than TCZYX. (8) The failure of line 111 means
    that the first file has neither a description nor a ROI id. In cases
    (3) to (8) the metadata of every file has been read. *)
Theorem X16_what_an_exception_tells (imgs : list BioImage)
  (c_subset : option (list string)) (transformations : bool) :
  (macsima imgs c_subset transformations = Raise NoFilesFound <-> imgs = [])
  /\ (forall e,
         from_metadata e = true ->
         macsima imgs c_subset transformations = Raise e ->
         exists img, In img imgs /\ _get_metadata img = Raise e)
  /\ (macsima imgs c_subset transformations = Raise RoiNotEqual ->
      exists img0 rest roi_id img,
        imgs = img0 :: rest
        /\ item 3 (row_of img0) = Some roi_id
        /\ In img rest
        /\ item 3 (row_of img) <> Some roi_id
        /\ Forall (fun img => _get_metadata img = Ok (row_of img)) imgs)
  /\ (macsima imgs c_subset transformations = Raise NoLeadingDigits ->
      exists img,
        In img imgs
        /\ leading_int (derived_name (row_of img)) = None
        /\ Forall (fun img => _get_metadata img = Ok (row_of img)) imgs)
  /\ (macsima imgs c_subset transformations = Raise NotEnoughValuesToUnpack ->
      exists c cs,
        c_subset = Some (c :: cs)
        /\ Forall (fun img => _get_metadata img = Ok (row_of img)
                              /\ is_in (item 2 (row_of img)) (c :: cs)
                                 = false) imgs)
  /\ (macsima imgs c_subset transformations = Raise PhysicalSizeNotEqual ->
      exists first others x p q,
        retained imgs c_subset = Ok (first :: others)
        /\ In x (first :: others)
        /\ pixel_size (img_of first) = Ok p
        /\ pixel_size (img_of x) = Ok q
        /\ (p =? q)%float = false)
  /\ (macsima imgs c_subset transformations = Raise DimsOrderNotTCZYX ->
      exists first others,
        retained imgs c_subset = Ok (first :: others)
        /\ dims_order (img_of first) <> "TCZYX")
  /\ (macsima imgs c_subset transformations = Raise NameIsNone ->
      exists img0 rest descriptions,
        imgs = img0 :: rest
        /\ experiments img0 = None :: descriptions
        /\ _get_metadata img0 = Ok (row_of img0)
        /\ item 3 (row_of img0) = None).
Proof.
  assert (Hread : forall metadata,
             comprehension _get_metadata imgs = Ok metadata ->
             Forall (fun img => _get_metadata img = Ok (row_of img)) imgs).
  { intros metadata Hm. apply Forall_forall. intros img Hin.
    apply (metadata_of _ _ _ Hm Hin). }
  assert (Hfirst : forall img0 rest metadata,
             imgs = img0 :: rest ->
             comprehension _get_metadata imgs = Ok metadata ->
             nth 0 (map (item 3) metadata) None = item 3 (row_of img0)).
  { intros img0 rest metadata -> Hm.
    destruct (comprehension_head _ _ _ _ Hm) as (row0 & rows & -> & Hr & _).
    unfold row_of. rewrite Hr. reflexivity. }
  split; [| split; [| split; [| split; [| split; [| split; [| split]]]]]].
  - split.
    + intros H. stage_cases H; try wrong_stage H; try assumption.
      exfalso.
      destruct (retained_Raise _ _ _ _ Hm H) as [[H' _] | [H' _]];
        discriminate H'.
    + intros ->. reflexivity.
  - intros e He H. stage_cases H; subst;
      try discriminate He.
    + apply comprehension_metadata_Raise in H. apply H.
    + apply roi_naming_Raise in H. destruct H as [-> _]. discriminate He.
    + destruct (retained_Raise _ _ _ _ Hm H) as [[-> _] | [-> _]];
        discriminate He.
    + apply pixel_size_from in H. destruct e; discriminate.
    + apply check_pixel_sizes_Raise_cause in H.
      destruct H as [H | [-> _]]; [destruct e | ]; discriminate.
  - intros H. stage_cases H; try wrong_stage H.
    + apply roi_naming_Raise in H.
      destruct H as [_ (x & Hsome & Hin & Hx)].
      rewrite (Hfirst _ _ _ Himgs Hm) in Hsome, Hx.
      assert (Hroi : exists roi_id,
                 item 3 (row_of img0) = Value (Some roi_id)).
      { assert (Hin0 : In img0 imgs) by (rewrite Himgs; left; reflexivity).
        destruct (_get_metadata_item_3 _ _ (metadata_of _ _ _ Hm Hin0))
          as [[roi_id |] [Hroi _]]; [exists roi_id; exact Hroi |].
        contradiction. }
      destruct Hroi as [roi_id Hroi]. rewrite Hroi in Hx.
      apply in_map_iff in Hin. destruct Hin as [row [<- Hrow]].
      pose proof (comprehension_Ok _ _ _ Hm) as Hrows.
      assert (Himg : exists img,
                 In img imgs /\ _get_metadata img = Ok row).
      { clear - Hrows Hrow. induction Hrows as [| a b l l' Hab _ IH].
        - contradiction.
        - destruct Hrow as [<- | Hrow].
          + exists a. split; [left; reflexivity | exact Hab].
          + destruct (IH Hrow) as [img [Hin Himg]].
            exists img. split; [right; exact Hin | exact Himg]. }
      destruct Himg as [img [Hin Himg]].
      assert (Hrow_of : row_of img = row)
        by (unfold row_of; rewrite Himg; reflexivity).
      exists img0, rest, roi_id, img.
      split; [exact Himgs |]. split; [exact Hroi |].
      split; [| split; [rewrite Hrow_of; exact Hx | apply (Hread _ Hm)]].
      rewrite Himgs in Hin. destruct Hin as [<- | Hin]; [| exact Hin].
      exfalso. apply Hx. rewrite <- Hrow_of. exact Hroi.
    + exfalso.
      destruct (retained_Raise _ _ _ _ Hm H) as [[H' _] | [H' _]];
        discriminate H'.
  - intros H. stage_cases H; try wrong_stage H.
    destruct (retained_Raise _ _ _ _ Hm H)
      as [[_ (img & Hin & Hname)] | [H' _]]; [| discriminate H'].
    exists img. split; [exact Hin |]. split; [exact Hname |].
    apply (Hread _ Hm).
  - intros H. stage_cases H; try wrong_stage H.
    destruct (retained_Raise _ _ _ _ Hm H)
      as [[H' _] | [_ (c & cs & Hcs & Hall)]]; [discriminate H' |].
    exists c, cs. split; [exact Hcs |].
    pose proof (Hread _ Hm) as Hr.
    rewrite Forall_forall in *. intros img Hin.
    split; [apply (Hr img Hin) | apply (Hall img Hin)].
  - intros H. stage_cases H; try wrong_stage H.
    + exfalso.
      destruct (retained_Raise _ _ _ _ Hm H) as [[H' _] | [H' _]];
        discriminate H'.
    + apply check_pixel_sizes_Raise_cause in H.
      destruct H as [H | [_ (img & q & Hin & Hq & Hpq)]];
        [discriminate H |].
      apply in_map_iff in Hin. destruct Hin as [x [<- Hin]].
      exists first, others, x, p, q. auto.
  - intros H. stage_cases H; try wrong_stage H.
    + exfalso.
      destruct (retained_Raise _ _ _ _ Hm H) as [[H' _] | [H' _]];
        discriminate H'.
    + exists first, others. auto.
  - intros H. stage_cases H; try wrong_stage H.
    + exfalso.
      destruct (retained_Raise _ _ _ _ Hm H) as [[H' _] | [H' _]];
        discriminate H'.
    + destruct naming as [system name]. cbn [snd] in Hname. subst name.
      apply roi_naming_Ok in Hn.
      rewrite (Hfirst _ _ _ Himgs Hm) in Hn.
      destruct (item 3 (row_of img0)) as [[roi_id |] |] eqn:Hroi.
      * destruct Hn as (_ & Hn & _). discriminate Hn.
      * destruct Hn as [_ <-].
        exists img0, rest, ds. split; [exact Himgs |].
        split; [exact Hd |]. split; [| exact Hroi].
        apply (metadata_of _ _ _ Hm). rewrite Himgs. left. reflexivity.
      * destruct Hn as (_ & Hn & _). discriminate Hn.
Qed.

Lemma X16_what_an_exception_tells_witness :
  (macsima [Inputs.no_roi; Inputs.cycle_x1] None false = Raise NoLeadingDigits
   /\ exists img,
       In img [Inputs.no_roi; Inputs.cycle_x1]
       /\ leading_int (derived_name (row_of img)) = None)
  /\ (macsima [Inputs.no_roi] (Some ["CD3"]) false
      = Raise NotEnoughValuesToUnpack
      /\ exists c cs, Some ["CD3"] = Some (c :: cs))
  /\ (from_metadata CycleNotFound = true
      /\ macsima [Inputs.no_roi; Cases.without_cycle] None false
         = Raise CycleNotFound
      /\ exists img,
          In img [Inputs.no_roi; Cases.without_cycle]
          /\ _get_metadata img = Raise CycleNotFound).
Proof.
  split; [| split].
  - split; [reflexivity |].
    destruct (X16_what_an_exception_tells [Inputs.no_roi; Inputs.cycle_x1]
                None false) as (_ & _ & _ & H & _).
    destruct (H eq_refl) as (img & Hin & Hname & _).
    exists img. auto.
  - split; [reflexivity |].
    destruct (X16_what_an_exception_tells [Inputs.no_roi] (Some ["CD3"])
                false) as (_ & _ & _ & _ & H & _).
    destruct (H eq_refl) as (c & cs & Hcs & _).
    exists c, cs. exact Hcs.
  - split; [reflexivity |]. split; [reflexivity |].
    destruct (X16_what_an_exception_tells
                [Inputs.no_roi; Cases.without_cycle] None false)
      as (_ & H & _).
    apply (H CycleNotFound eq_refl eq_refl).
Defined.

(** ** From line 92 on *)





(** ** C6: the physical pixel size across the images *)




(** ** C7: the dimension order *)




